(** * estimate_coding_time.py: sessions and time estimates from a commit log

    A shallow embedding of [estimate_coding_time.py] and the properties its
    specification states about it.

    Modelling conventions.
    - Python raises exceptions; every fallible operation returns a
      [result], and code that calls several of them is written in the
      [result] monad.
    - A [datetime] is a count of microseconds on the naive local time line,
      a [timedelta] a signed count of microseconds.
    - Python floats are read as exact rationals ([Q]): [0.02] is [2/100],
      [x / 60.0] is division in [Q].  The only float comparison of the
      program, [time_diff <= MAX_GAP_MINUTES], gives the same answer on
      binary64 as on rationals for every pair of datetimes, since 90 is
      representable, rounding is monotone and a timedelta of one
      microsecond above 90 minutes is still far more than one ulp away.
    - Text is modelled over the code points 0..255 (type [ascii], read as
      Latin-1); the character classes are those of CPython on that range. *)

From Stdlib Require Import ZArith QArith String Ascii List Lia Bool Sorted.
From stdpp Require Import base list.
Import ListNotations.
Local Open Scope Z_scope.

(** ** Exceptions and the result monad *)

Inductive exn : Type :=
| IndexError
| ValueError
| OverflowError
| CalledProcessError.

Inductive result (A : Type) : Type :=
| Ok (a : A)
| Raise (e : exn).
Arguments Ok {A} a.
Arguments Raise {A} e.

#[global] Instance result_ret : MRet result := fun A a => Ok a.
#[global] Instance result_bind : MBind result := fun A B f m =>
  match m with
  | Ok a => f a
  | Raise e => Raise e
  end.

(** [for x in xs: s = body(s, x)], stopping at the first exception. *)
Fixpoint for_each {S X : Type} (body : S -> X -> result S) (xs : list X) (s : S)
  : result S :=
  match xs with
  | [] => Ok s
  | x :: xs' => s' ← body s x; for_each body xs' s'
  end.

(** ** Python list built-ins *)

(** [l[i]] with Python's negative indices; out of range raises IndexError. *)
Definition py_getitem {A : Type} (l : list A) (i : Z) : result A :=
  let n := Z.of_nat (length l) in
  let j := if i <? 0 then i + n else i in
  if j <? 0 then Raise IndexError
  else match l !! Z.to_nat j with
       | Some x => Ok x
       | None => Raise IndexError
       end.

(** [enumerate(l, start)] *)
Fixpoint enumerate {A : Type} (start : Z) (l : list A) : list (Z * A) :=
  match l with
  | [] => []
  | x :: l' => (start, x) :: enumerate (start + 1) l'
  end.

(** Truth value of a list: empty lists are false. *)
Definition list_truthy {A : Type} (l : list A) : bool :=
  match l with
  | [] => false
  | _ :: _ => true
  end.

(** ** Data model *)

Record datetime : Type := Datetime { micros : Z }.
Record timedelta : Type := Timedelta { td_micros : Z }.

(** [a - b] on datetimes *)
Definition dt_sub (a b : datetime) : timedelta :=
  Timedelta (micros a - micros b).

(** [td.total_seconds()] *)
Definition total_seconds (td : timedelta) : Q :=
  (inject_Z (td_micros td) / inject_Z 1000000)%Q.

(** The dict built by [get_git_commit_data]: keys 'timestamp', 'hash',
    'lines_changed'. *)
Record commit : Type := Commit {
  timestamp : datetime;
  hash : string;
  lines_changed : Z
}.

(** A session is a list of commit dicts. *)
Abbreviation session := (list commit).

(** ** Configuration *)

Definition MAX_GAP_MINUTES : Z := 90.
Definition TIME_PER_LINE_MINUTES : Q := (2 # 100)%Q.
Definition PRE_COMMIT_LINE_FACTOR : Z := 1.

(** ** group_commits_into_sessions *)

(** [(commit['timestamp'] - prev_commit['timestamp']).total_seconds() / 60.0] *)
Definition time_diff (prev_commit commit : commit) : Q :=
  (total_seconds (dt_sub (timestamp commit) (timestamp prev_commit))
   / inject_Z 60)%Q.

(** One iteration of the loop over [enumerate(commits)]; the state is
    [(sessions, current_session)]. *)
Definition group_body (commits : list commit)
    (st : list session * session) (ic : Z * commit)
  : result (list session * session) :=
  let '(sessions, current_session) := st in
  let '(i, commit) := ic in
  if i =? 0 then
    Ok (sessions, current_session ++ [commit])
  else
    prev_commit ← py_getitem commits (i - 1);
    if Qle_bool (time_diff prev_commit commit) (inject_Z MAX_GAP_MINUTES) then
      Ok (sessions, current_session ++ [commit])
    else
      Ok (sessions ++ [current_session], [commit]).

Definition group_commits_into_sessions (commits : list commit)
  : result (list session) :=
  '(sessions, current_session) ←
     for_each (group_body commits) (enumerate 0 commits) ([], []);
  if list_truthy current_session then Ok (sessions ++ [current_session])
  else Ok sessions.

(** ** estimate_session_time *)

Definition estimate_session_time (session : list commit) : result Q :=
  if negb (list_truthy session) then Ok 0%Q
  else
    first ← py_getitem session 0;
    let start_time := timestamp first in
    last ← py_getitem session (-1);
    let end_time := timestamp last in
    let direct_time_minutes :=
      (total_seconds (dt_sub end_time start_time) / inject_Z 60)%Q in
    first' ← py_getitem session 0;
    let first_commit_lines := lines_changed first' in
    let pre_commit_estimate :=
      (inject_Z first_commit_lines * TIME_PER_LINE_MINUTES
       * inject_Z PRE_COMMIT_LINE_FACTOR)%Q in
    Ok (direct_time_minutes + pre_commit_estimate)%Q.

(** ** Python string built-ins (code points 0..255) *)

Definition tab : ascii := ascii_of_N 9.
Definition newline : ascii := ascii_of_N 10.

(** [str.isspace] on one character, also the regex class [\s]:
    U+0009..U+000D, U+001C..U+0020, U+0085, U+00A0. *)
Definition isspace_char (c : ascii) : bool :=
  let n := N_of_ascii c in
  ((9 <=? n) && (n <=? 13) || (28 <=? n) && (n <=? 32)
   || (n =? 133) || (n =? 160))%N.

(** The decimal digits, regex class [\d]: U+0030..U+0039. *)
Definition isdecimal_char (c : ascii) : bool :=
  let n := N_of_ascii c in ((48 <=? n) && (n <=? 57))%N.

(** [str.isdigit] on one character: the decimal digits and the superscript
    digits U+00B2, U+00B3, U+00B9. *)
Definition isdigit_char (c : ascii) : bool :=
  let n := N_of_ascii c in
  (isdecimal_char c || (n =? 178) || (n =? 179) || (n =? 185))%N.

(** The regex class [[0-9a-f]]. *)
Definition ishex_char (c : ascii) : bool :=
  let n := N_of_ascii c in
  ((48 <=? n) && (n <=? 57) || (97 <=? n) && (n <=? 102))%N.

Definition digit_value (c : ascii) : Z := Z.of_N (N_of_ascii c) - 48.

Fixpoint str_forallb (p : ascii -> bool) (s : string) : bool :=
  match s with
  | EmptyString => true
  | String c s' => p c && str_forallb p s'
  end.

Definition str_truthy (s : string) : bool :=
  match s with
  | EmptyString => false
  | String _ _ => true
  end.

(** [s.lstrip()], [s.rstrip()], [s.strip()] *)
Fixpoint lstrip (s : string) : string :=
  match s with
  | EmptyString => EmptyString
  | String c s' => if isspace_char c then lstrip s' else s
  end.

Fixpoint rstrip (s : string) : string :=
  match s with
  | EmptyString => EmptyString
  | String c s' =>
      match rstrip s' with
      | EmptyString => if isspace_char c then EmptyString
                       else String c EmptyString
      | String d r => String c (String d r)
      end
  end.

Definition strip (s : string) : string := rstrip (lstrip s).

(** [s.split(sep)] for a one-character separator: the first piece and the
    pieces after it. *)
Fixpoint split_pieces (sep : ascii) (s : string) : string * list string :=
  match s with
  | EmptyString => (EmptyString, [])
  | String c s' =>
      let '(p, ps) := split_pieces sep s' in
      if Ascii.eqb c sep then (EmptyString, p :: ps) else (String c p, ps)
  end.

Definition split (sep : ascii) (s : string) : list string :=
  let '(p, ps) := split_pieces sep s in p :: ps.

(** [s.isdigit()]: non-empty and every character a digit. *)
Definition isdigit (s : string) : bool :=
  str_truthy s && str_forallb isdigit_char s.

(** The longest prefix of characters in a class, and what follows it. *)
Fixpoint span (p : ascii -> bool) (s : string) : string * string :=
  match s with
  | EmptyString => (EmptyString, EmptyString)
  | String c s' =>
      if p c then let '(a, b) := span p s' in (String c a, b)
      else (EmptyString, s)
  end.

(** [re.compile(r'^(\d+)\s+([0-9a-f]+)$').match(line)]: the two groups when
    the line matches.  The three classes are pairwise disjoint where they
    meet, so the only way to match is by maximal runs; [$] also matches
    before one final newline. *)
Definition time_hash_pattern_match (line : string) : option (string * string) :=
  let '(epoch_str, r1) := span isdecimal_char line in
  let '(blank, r2) := span isspace_char r1 in
  let '(commit_hash, r3) := span ishex_char r2 in
  if str_truthy epoch_str && str_truthy blank && str_truthy commit_hash
     && (String.eqb r3 EmptyString
         || String.eqb r3 (String newline EmptyString))
  then Some (epoch_str, commit_hash)
  else None.

(** The digits of an integer literal: decimal digits, single underscores
    allowed between two digits.  Returns the number of digits and the value. *)
Fixpoint parse_digits (s : string) (prev_digit : bool) (count : nat) (acc : Z)
  : option (nat * Z) :=
  match s with
  | EmptyString => if prev_digit then Some (count, acc) else None
  | String c s' =>
      if isdecimal_char c then
        parse_digits s' true (S count) (10 * acc + digit_value c)
      else if Ascii.eqb c "_"%char && prev_digit then
        parse_digits s' false count acc
      else None
  end.

(** ** Events of a run *)

(** What [print] is given: the literal lines as text, the formatted lines
    with the values that are interpolated. *)
Inductive printed : Type :=
| Text (s : string)
| FoundCommits (n : nat)
| GroupedInto (m : nat)
| SessionReport (i : Z) (n_commits : nat) (session_time : Q)
| TotalReport (hours : Q).

(** What a run of [main] does, in order: a line printed, a call of
    [group_commits_into_sessions], a call of [estimate_session_time]. *)
Inductive event : Type :=
| Print (p : printed)
| CallGroup (commits : list commit)
| CallEstimate (s : session).

(** A computation that prints and calls as it goes and may raise. *)
Record io (A : Type) : Type := IO {
  trace : list event;
  outcome : result A
}.
Arguments IO {A} trace outcome.
Arguments trace {A} _.
Arguments outcome {A} _.

#[global] Instance io_ret : MRet io := fun A a => IO [] (Ok a).
#[global] Instance io_bind : MBind io := fun A B f m =>
  match outcome m with
  | Ok a => IO (trace m ++ trace (f a)) (outcome (f a))
  | Raise e => IO (trace m) (Raise e)
  end.

Definition emit (e : event) : io unit := IO [e] (Ok tt).
Definition print (p : printed) : io unit := emit (Print p).
Definition lift {A : Type} (r : result A) : io A := IO [] r.

Fixpoint for_each_io {S X : Type} (body : S -> X -> io S) (xs : list X) (s : S)
  : io S :=
  match xs with
  | [] => mret s
  | x :: xs' => s' ← body s x; for_each_io body xs' s'
  end.

(** ** main, from the session list on (the loop and the summary) *)

Definition report_body (total_minutes : Q) (entry : Z * session) : io Q :=
  let '(i, session) := entry in
  emit (CallEstimate session);;
  session_time ← lift (estimate_session_time session);
  let total_minutes := (total_minutes + session_time)%Q in
  print (SessionReport i (length session) session_time);;
  mret total_minutes.

Definition summary_header : string :=
  String newline "--- Summary ---"%string.

Definition report_sessions (sessions : list session) : io Q :=
  total_minutes ← for_each_io report_body (enumerate 1 sessions) 0%Q;
  print (Text summary_header);;
  let hours := (total_minutes / inject_Z 60)%Q in
  print (TotalReport hours);;
  mret total_minutes.

(** ** The extractor and main, in an environment *)

Section Environment.

(** [datetime.fromtimestamp]: depends on the local time zone, and raises
    for an epoch outside the platform's range. *)
Variable fromtimestamp : Z -> result datetime.

(** [sys.get_int_max_str_digits()]: 4300 by default on recent
    interpreters, 0 when there is no limit (the interpreter accepts 0 or a
    value of at least 640). *)
Variable int_max_str_digits : nat.

(** [int(s)] on a string: surrounding whitespace, an optional sign, the
    digits. *)
Definition py_int (s : string) : result Z :=
  let body := strip s in
  let '(negative, digits) :=
    match body with
    | String "-"%char r => (true, r)
    | String "+"%char r => (false, r)
    | _ => (false, body)
    end in
  match parse_digits digits false 0%nat 0 with
  | Some (count, v) =>
      if Nat.ltb 0 int_max_str_digits && Nat.ltb int_max_str_digits count
      then Raise ValueError
      else Ok (if negative then - v else v)
  | None => Raise ValueError
  end.

(** The [try ... except ValueError] block of the numstat branch. *)
Definition numstat_counts (added_str removed_str : string) : result (Z * Z) :=
  match
    (added ← (if isdigit added_str then py_int added_str else Ok 0);
     removed ← (if isdigit removed_str then py_int removed_str else Ok 0);
     mret (added, removed))
  with
  | Ok p => Ok p
  | Raise ValueError => Ok (0, 0)
  | Raise e => Raise e
  end.

(** The dicts live in a store; the list [commits] and the variable
    [current_commit] hold references (positions in the store), so the
    update through [current_commit] is seen through [commits]. *)
Record extractor_state : Type := ExtractorState {
  heap : list commit;
  commits : list nat;
  current_commit : option nat
}.

Definition add_lines (k : Z) (c : commit) : commit :=
  Commit (timestamp c) (hash c) (lines_changed c + k).

(** One iteration of [for line in lines]. *)
Definition process_line (st : extractor_state) (line : string)
  : result extractor_state :=
  match time_hash_pattern_match line with
  | Some (epoch_str, commit_hash) =>
      epoch ← py_int epoch_str;
      ts ← fromtimestamp epoch;
      let ref := length (heap st) in
      Ok (ExtractorState (heap st ++ [Commit ts commit_hash 0])
                         (commits st ++ [ref])
                         (Some ref))
  | None =>
      let diff_parts := split tab (strip line) in
      match diff_parts, current_commit st with
      | [added_str; removed_str; _], Some cur =>
          '(added, removed) ← numstat_counts added_str removed_str;
          Ok (ExtractorState (alter (add_lines (added + removed)) cur (heap st))
                             (commits st)
                             (current_commit st))
      | _, _ => Ok st
      end
  end.

(** [run] is what [subprocess.run(cmd, capture_output=True, text=True,
    check=True)] gives: the standard output, or the exception raised. *)
Definition get_git_commit_data (run : result string) : result (list commit) :=
  stdout ← run;
  let lines := split newline (strip stdout) in
  st ← for_each process_line lines (ExtractorState [] [] None);
  mret (omap (fun ref => heap st !! ref) (commits st)).

Definition main (run : result string) : io unit :=
  print (Text "Gathering commit data...");;
  commits ← lift (get_git_commit_data run);
  if negb (list_truthy commits) then
    print (Text "No commit data found.")
  else
    print (FoundCommits (length commits));;
    emit (CallGroup commits);;
    sessions ← lift (group_commits_into_sessions commits);
    print (GroupedInto (length sessions));;
    report_sessions sessions;;
    mret tt.

End Environment.

(** ** Views used in the proofs *)

(** The test of line 85 on two neighbouring commits. *)
Definition same_session (prev_commit commit : commit) : bool :=
  Qle_bool (time_diff prev_commit commit) (inject_Z MAX_GAP_MINUTES).

(** The commits after [prev] that stay in the session of [prev], and the
    sessions after that one. *)
Fixpoint chunks (prev : commit) (rest : list commit) : session * list session :=
  match rest with
  | [] => ([], [])
  | c :: rest' =>
      let '(s, ss) := chunks c rest' in
      if same_session prev c then (c :: s, ss) else ([], (c :: s) :: ss)
  end.

Definition sessions_of (commits : list commit) : list session :=
  match commits with
  | [] => []
  | c :: rest => let '(s, ss) := chunks c rest in (c :: s) :: ss
  end.

(** Commits in ascending order of time. *)
Definition chronological (commits : list commit) : Prop :=
  Sorted (fun a b => micros (timestamp a) <= micros (timestamp b)) commits.

(** The sum of a list of rationals. *)
Definition Qsum (l : list Q) : Q := fold_right Qplus 0%Q l.

(** The time from commit [a] to commit [b], in microseconds, and the
    threshold in the same unit. *)
Definition gap_micros (a b : commit) : Z :=
  micros (timestamp b) - micros (timestamp a).

Definition max_gap_micros : Z := MAX_GAP_MINUTES * 60 * 1000000.

(** The minutes from one datetime to another. *)
Definition minutes_between (a b : datetime) : Q :=
  ((micros b - micros a) # 60000000)%Q.

(** Every commit of the list is within the threshold of the one before. *)
Fixpoint linked (s : list commit) : Prop :=
  match s with
  | a :: (b :: _) as t => same_session a b = true /\ linked t
  | _ => True
  end.

(** The last commit of [s1] and the first of [s2] are further apart than
    the threshold. *)
Definition boundary (s1 s2 : list commit) : Prop :=
  forall l a b r, s1 = l ++ [a] -> s2 = b :: r -> same_session a b = false.

Fixpoint separated (ss : list (list commit)) : Prop :=
  match ss with
  | s1 :: (s2 :: _) as t => boundary s1 s2 /\ separated t
  | _ => True
  end.

(** The calls and prints of the loop of [main] over the sessions, numbered
    from [i], when the estimates are [times]. *)
Fixpoint session_events (i : Z) (sessions : list (list commit)) (times : list Q)
  : list event :=
  match sessions, times with
  | s :: ss, t :: ts =>
      CallEstimate s :: Print (SessionReport i (length s) t)
      :: session_events (i + 1) ss ts
  | _, _ => []
  end.

(** The buffer for the work before the first commit of a session. *)
Definition pre_commit_buffer (first : commit) : Q :=
  (inject_Z (lines_changed first) * TIME_PER_LINE_MINUTES
   * inject_Z PRE_COMMIT_LINE_FACTOR)%Q.

(** The state of the extractor's loop after [k] more lines were counted on
    the record [current_commit] refers to. *)
Definition add_to_current (k : Z) (st : extractor_state) : extractor_state :=
  match current_commit st with
  | Some cur =>
      ExtractorState (alter (add_lines k) cur (heap st))
                     (commits st) (current_commit st)
  | None => st
  end.

(** The list the extractor would return from a state. *)
Definition returned (st : extractor_state) : list commit :=
  omap (fun ref => heap st !! ref) (commits st).

(** States the loop can be in: [commits] refers to every record, in the
    order of creation, and [current_commit] to the last of them. *)
Definition wf_state (st : extractor_state) : Prop :=
  commits st = seq 0 (length (heap st))
  /\ current_commit st = last (commits st).

(** ** Sample data *)

(** A commit made [seconds] after the origin that changed [lines] lines. *)
Definition commit_at (seconds lines : Z) : commit :=
  Commit (Datetime (seconds * 1000000)) "abc123" lines.

(** The history of the specification's scenario: commits at 0 s, 1000 s and
    10000 s with 50, 10 and 5 lines changed. *)
Definition scenario_commits : list commit :=
  [commit_at 0 50; commit_at 1000 10; commit_at 10000 5].

(** An environment for the examples: local time is UTC, epochs up to the
    year 9999 are accepted, and the default limit on integer strings. *)
Definition utc_fromtimestamp (epoch : Z) : result datetime :=
  if (0 <=? epoch) && (epoch <? 253402300800)
  then Ok (Datetime (epoch * 1000000))
  else Raise OverflowError.

Definition default_max_str_digits : nat := 4300.

Definition line_of (fields : list string) : string :=
  String.concat (String tab EmptyString) fields.

Definition lines_of (lines : list string) : string :=
  String.concat (String newline EmptyString) lines.

(** A log with one commit and one numstat line whose removed count is the
    placeholder. *)
Definition one_sided_log : string :=
  lines_of ["1675076488 abc123"%string;
            line_of ["5"%string; "-"%string; "f"%string]].

(** The state after the commit line of [one_sided_log]. *)
Definition one_commit_state : extractor_state :=
  ExtractorState [Commit (Datetime 1675076488000000) "abc123" 0] [0%nat]
                 (Some 0%nat).

(** A log that gives [scenario_commits]. *)
Definition scenario_log : string :=
  lines_of ["0 abc123"%string;
            line_of ["50"%string; "0"%string; "a"%string];
            "1000 abc123"%string;
            line_of ["10"%string; "0"%string; "b"%string];
            "10000 abc123"%string;
            line_of ["5"%string; "0"%string; "c"%string]].

(** The one-character string U+00B2, a digit for [isdigit] that [int]
    rejects. *)
Definition superscript_two : string := String (ascii_of_N 178) EmptyString.

(** ** Views for the further properties *)

(** The number of neighbouring pairs of the list that are further apart than
    the threshold. *)
Fixpoint long_gaps (commits : list commit) : nat :=
  match commits with
  | a :: (b :: _) as t =>
      ((if (max_gap_micros <? gap_micros a b)%Z then 1 else 0)
       + long_gaps t)%nat
  | _ => 0%nat
  end.

(** The same commit, [delta] microseconds later. *)
Definition shift_commit (delta : Z) (c : commit) : commit :=
  Commit (Datetime (micros (timestamp c) + delta)) (hash c) (lines_changed c).

(** The value of a string of decimal digits, most significant digit
    first. *)
Fixpoint decimal_value (s : string) : Z :=
  match s with
  | EmptyString => 0
  | String c s' =>
      digit_value c * 10 ^ Z.of_nat (String.length s') + decimal_value s'
  end.

(** Does the line match the commit-line pattern? *)
Definition is_commit_line (line : string) : bool :=
  match time_hash_pattern_match line with
  | Some _ => true
  | None => false
  end.

(** Does a string hold no tab? *)
Definition no_tab (s : string) : bool :=
  str_forallb (fun c => negb (Ascii.eqb c tab)) s.

(** Is the epoch of the line accepted, when the line is a commit line? *)
Definition epoch_accepted (fromtimestamp : Z -> result datetime)
    (int_max_str_digits : nat) (line : string) : bool :=
  match time_hash_pattern_match line with
  | Some (epoch_str, _) =>
      match py_int int_max_str_digits epoch_str with
      | Ok epoch =>
          match fromtimestamp epoch with
          | Ok _ => true
          | Raise _ => false
          end
      | Raise _ => false
      end
  | None => true
  end.

(** The record [c] was made from the commit line [line]: the hash is the
    second group of the line and the timestamp comes from its epoch. *)
Definition record_of_line (fromtimestamp : Z -> result datetime)
    (int_max_str_digits : nat) (c : commit) (line : string) : Prop :=
  exists epoch_str epoch,
    time_hash_pattern_match line = Some (epoch_str, hash c)
    /\ py_int int_max_str_digits epoch_str = Ok epoch
    /\ fromtimestamp epoch = Ok (timestamp c).

(** A log without any commit line. *)
Definition stray_log : string :=
  lines_of ["not a commit"%string;
            line_of ["4"%string; "2"%string; "path/to/file"%string]].

(** The number of commits and the number of a session line of the report. *)
Definition reported_commit_count (e : event) : option nat :=
  match e with
  | Print (SessionReport _ n _) => Some n
  | _ => None
  end.

Definition reported_session_index (e : event) : option Z :=
  match e with
  | Print (SessionReport i _ _) => Some i
  | _ => None
  end.

(** The hours of the last line of the report. *)
Definition reported_hours (e : event) : option Q :=
  match e with
  | Print (TotalReport hours) => Some hours
  | _ => None
  end.

(** The minutes of the gaps of a history that are longer than the
    threshold, added up. *)
Fixpoint long_gap_minutes (commits : list commit) : Q :=
  match commits with
  | a :: (b :: _) as t =>
      ((if same_session a b then 0 else time_diff a b)
       + long_gap_minutes t)%Q
  | _ => 0%Q
  end.

(** The buffers of the first commits of the sessions, added up. *)
Definition first_commit_buffers (sessions : list (list commit)) : Q :=
  Qsum (map (fun s => match s with
                      | first :: _ => pre_commit_buffer first
                      | [] => 0%Q
                      end) sessions).

(** The value [estimate_session_time] returns. *)
Definition estimate_value (s : list commit) : Q :=
  match s with
  | [] => 0%Q
  | first :: rest =>
      (minutes_between (timestamp first) (timestamp (List.last rest first))
       + pre_commit_buffer first)%Q
  end.

(** * Properties *)

(** ** Indexing *)

Lemma py_getitem_middle {A : Type} (pre post : list A) (x : A) :
  py_getitem (pre ++ x :: post) (Z.of_nat (length pre)) = Ok x.
Proof.
  unfold py_getitem.
  destruct (Z.ltb_spec (Z.of_nat (length pre)) 0) as [Hneg | _]; [lia |].
  destruct (Z.ltb_spec (Z.of_nat (length pre)) 0) as [Hneg | _]; [lia |].
  rewrite Nat2Z.id, list_lookup_middle by reflexivity.
  reflexivity.
Qed.

Lemma py_getitem_first {A : Type} (x : A) (l : list A) :
  py_getitem (x :: l) 0 = Ok x.
Proof. reflexivity. Qed.

Lemma py_getitem_last {A : Type} (l : list A) (x : A) :
  py_getitem (l ++ [x]) (-1) = Ok x.
Proof.
  unfold py_getitem. cbv zeta.
  change (-1 <? 0) with true. cbv iota.
  rewrite length_app. cbn [length].
  destruct (Z.ltb_spec (-1 + Z.of_nat (length l + 1)) 0) as [Hneg | _]; [lia |].
  replace (Z.to_nat (-1 + Z.of_nat (length l + 1))) with (length l) by lia.
  rewrite list_lookup_middle by reflexivity.
  reflexivity.
Qed.

(** ** The grouping loop *)

Lemma chunks_step (prev c : commit) (rest : list commit) :
  chunks prev (c :: rest) =
  if same_session prev c
  then (c :: fst (chunks c rest), snd (chunks c rest))
  else ([], (c :: fst (chunks c rest)) :: snd (chunks c rest)).
Proof. simpl. destruct (chunks c rest). reflexivity. Qed.

Lemma group_body_first (commits : list commit) (sessions : list session)
    (current : session) (c : commit) :
  group_body commits (sessions, current) (0, c)
  = Ok (sessions, current ++ [c]).
Proof. reflexivity. Qed.

Lemma group_body_next (commits : list commit) (sessions : list session)
    (current : session) (i : Z) (prev c : commit) :
  i <> 0 ->
  py_getitem commits (i - 1) = Ok prev ->
  group_body commits (sessions, current) (i, c)
  = Ok (if same_session prev c then (sessions, current ++ [c])
        else (sessions ++ [current], [c])).
Proof.
  intros Hi Hprev. unfold group_body, same_session.
  destruct (Z.eqb_spec i 0) as [Hz | _]; [contradiction |].
  rewrite Hprev. cbn [mbind result_bind].
  destruct (Qle_bool _ _); reflexivity.
Qed.

(** From a state whose open session is [current], the loop over the commits
    after [prev] ends in a state that, once the open session is closed, is
    the sessions so far, then [current] extended, then the later sessions. *)
Lemma group_loop_from (rest pre : list commit) (prev : commit)
    (sessions : list session) (current : session) :
  current <> [] ->
  exists sessions' current',
    for_each (group_body (pre ++ prev :: rest))
             (enumerate (Z.of_nat (length pre) + 1) rest)
             (sessions, current)
    = Ok (sessions', current')
    /\ current' <> []
    /\ sessions' ++ [current']
       = sessions
         ++ (current ++ fst (chunks prev rest)) :: snd (chunks prev rest).
Proof.
  revert pre prev sessions current.
  induction rest as [| c rest IH]; intros pre prev sessions current Hne.
  - exists sessions, current. simpl. rewrite app_nil_r. auto.
  - cbn [enumerate for_each].
    rewrite (group_body_next _ _ _ _ prev) by
      (try lia;
       replace (Z.of_nat (length pre) + 1 - 1) with (Z.of_nat (length pre))
         by lia;
       apply py_getitem_middle).
    cbn [mbind result_bind].
    rewrite chunks_step.
    specialize (IH (pre ++ [prev]) c).
    rewrite <- app_assoc in IH. cbn [app] in IH.
    rewrite length_app in IH. cbn [length] in IH.
    replace (Z.of_nat (length pre + 1) + 1)
      with (Z.of_nat (length pre) + 1 + 1) in IH by lia.
    destruct (same_session prev c).
    + destruct (IH sessions (current ++ [c])) as (S' & C' & Hrun & HC & Heq).
      { destruct current; discriminate. }
      exists S', C'. split; [exact Hrun |]. split; [exact HC |].
      rewrite Heq. cbn [fst snd]. rewrite <- app_assoc. reflexivity.
    + destruct (IH (sessions ++ [current]) [c]) as (S' & C' & Hrun & HC & Heq).
      { discriminate. }
      exists S', C'. split; [exact Hrun |]. split; [exact HC |].
      rewrite Heq. cbn [fst snd]. rewrite <- app_assoc, app_nil_r.
      reflexivity.
Qed.

(** The function never raises, and computes [sessions_of]. *)
Lemma group_commits_into_sessions_eq (commits : list commit) :
  group_commits_into_sessions commits = Ok (sessions_of commits).
Proof.
  destruct commits as [| c rest]; [reflexivity |].
  unfold group_commits_into_sessions.
  cbn [enumerate for_each]. rewrite group_body_first.
  cbn [mbind result_bind app].
  destruct (group_loop_from rest [] c [] [c]) as (S' & C' & Hrun & HC & Heq);
    [discriminate |].
  change (Z.of_nat (length (@nil commit)) + 1) with (0 + 1) in Hrun.
  cbn [app] in Hrun. rewrite Hrun. cbn [mbind result_bind].
  destruct C' as [| x C']; [congruence |].
  cbn [list_truthy]. rewrite Heq.
  unfold sessions_of. destruct (chunks c rest). reflexivity.
Qed.

(** ** The threshold test in microseconds *)

Lemma time_diff_minutes (a b : commit) :
  (time_diff a b == minutes_between (timestamp a) (timestamp b))%Q.
Proof.
  unfold time_diff, minutes_between, total_seconds, dt_sub, Qeq, Qdiv.
  simpl. lia.
Qed.

Lemma same_session_true (a b : commit) :
  same_session a b = true <-> gap_micros a b <= max_gap_micros.
Proof.
  unfold same_session. rewrite Qle_bool_iff, time_diff_minutes.
  unfold minutes_between, gap_micros, max_gap_micros, MAX_GAP_MINUTES, Qle.
  simpl. lia.
Qed.

Lemma same_session_false (a b : commit) :
  same_session a b = false <-> max_gap_micros < gap_micros a b.
Proof.
  destruct (same_session a b) eqn:E.
  - apply same_session_true in E. split; [discriminate | lia].
  - split; [intros _ | reflexivity].
    destruct (Z.le_gt_cases (gap_micros a b) max_gap_micros) as [H | H];
      [| lia].
    apply same_session_true in H. congruence.
Qed.

(** ** The sessions as a partition *)

Lemma chunks_concat (rest : list commit) (prev : commit) :
  fst (chunks prev rest) ++ concat (snd (chunks prev rest)) = rest.
Proof.
  revert prev. induction rest as [| c rest IH]; intros prev; [reflexivity |].
  rewrite chunks_step. specialize (IH c).
  destruct (same_session prev c); cbn [fst snd concat app]; congruence.
Qed.

Lemma chunks_nonempty (rest : list commit) (prev : commit) :
  Forall (fun s => s <> []) (snd (chunks prev rest)).
Proof.
  revert prev. induction rest as [| c rest IH]; intros prev.
  - constructor.
  - rewrite chunks_step. specialize (IH c).
    destruct (same_session prev c); cbn [snd]; [exact IH |].
    constructor; [discriminate | exact IH].
Qed.

Lemma sessions_of_concat (commits : list commit) :
  concat (sessions_of commits) = commits.
Proof.
  destruct commits as [| c rest]; [reflexivity |].
  unfold sessions_of. pose proof (chunks_concat rest c) as H.
  destruct (chunks c rest) as [s ss]. cbn [fst snd] in H.
  cbn [concat app]. congruence.
Qed.

Lemma sessions_of_nonempty (commits : list commit) :
  Forall (fun s => s <> []) (sessions_of commits).
Proof.
  destruct commits as [| c rest]; [constructor |].
  unfold sessions_of. pose proof (chunks_nonempty rest c) as H.
  destruct (chunks c rest) as [s ss]. cbn [snd] in H.
  constructor; [discriminate | exact H].
Qed.

(** ** Gaps inside and between sessions *)

Lemma linked_pair (s l r : list commit) (a b : commit) :
  linked s -> s = l ++ a :: b :: r -> same_session a b = true.
Proof.
  revert s. induction l as [| x l IH]; intros s Hs ->.
  - exact (proj1 Hs).
  - apply (IH (l ++ a :: b :: r)); [| reflexivity].
    destruct l; exact (proj2 Hs).
Qed.

Lemma separated_pair (ss L R : list (list commit)) (s1 s2 : list commit) :
  separated ss -> ss = L ++ s1 :: s2 :: R -> boundary s1 s2.
Proof.
  revert ss. induction L as [| x L IH]; intros ss Hss ->.
  - exact (proj1 Hss).
  - apply (IH (L ++ s1 :: s2 :: R)); [| reflexivity].
    destruct L; exact (proj2 Hss).
Qed.

Lemma boundary_cons (p : commit) (s1 s2 : list commit) :
  s1 <> [] -> boundary s1 s2 -> boundary (p :: s1) s2.
Proof.
  intros Hne Hb l a b r Hl Hr.
  destruct l as [| x l].
  - injection Hl as _ Hs1. contradiction.
  - injection Hl as _ Hs1. exact (Hb l a b r Hs1 Hr).
Qed.

Lemma chunks_linked (rest : list commit) (prev : commit) :
  linked (prev :: fst (chunks prev rest))
  /\ Forall linked (snd (chunks prev rest)).
Proof.
  revert prev. induction rest as [| c rest IH]; intros prev.
  - split; [exact I | constructor].
  - rewrite chunks_step. destruct (IH c) as [Hhd Htl].
    destruct (same_session prev c) eqn:E; cbn [fst snd].
    + split; [split; assumption | assumption].
    + split; [exact I | constructor; assumption].
Qed.

Lemma chunks_separated (rest : list commit) (prev : commit) :
  separated ((prev :: fst (chunks prev rest)) :: snd (chunks prev rest)).
Proof.
  revert prev. induction rest as [| c rest IH]; intros prev; [exact I |].
  rewrite chunks_step. specialize (IH c).
  destruct (same_session prev c) eqn:E; cbn [fst snd].
  - destruct (snd (chunks c rest)) as [| s2 ss]; [exact I |].
    destruct IH as [Hb Hs]. split; [| exact Hs].
    apply boundary_cons; [discriminate | exact Hb].
  - split; [| exact IH].
    intros l a b r Hl Hr.
    destruct l as [| x l].
    + injection Hl as <-. injection Hr as <- _. exact E.
    + injection Hl as _ Hl. destruct l; discriminate.
Qed.

Lemma sessions_of_linked (commits : list commit) :
  Forall linked (sessions_of commits).
Proof.
  destruct commits as [| c rest]; [constructor |].
  unfold sessions_of. pose proof (chunks_linked rest c) as [Hhd Htl].
  destruct (chunks c rest) as [s ss]. constructor; assumption.
Qed.

Lemma sessions_of_separated (commits : list commit) :
  separated (sessions_of commits).
Proof.
  destruct commits as [| c rest]; [exact I |].
  unfold sessions_of. pose proof (chunks_separated rest c) as H.
  destruct (chunks c rest) as [s ss]. exact H.
Qed.

(** ** Where two neighbouring commits end up *)

Lemma sessions_of_cons (p c : commit) (rest : list commit) :
  sessions_of (p :: c :: rest) =
  if same_session p c
  then (p :: hd [] (sessions_of (c :: rest))) :: tl (sessions_of (c :: rest))
  else [p] :: sessions_of (c :: rest).
Proof.
  unfold sessions_of. rewrite chunks_step.
  destruct (chunks c rest) as [s ss].
  destruct (same_session p c); reflexivity.
Qed.

(** The sessions of a list around two neighbours [a], [b]: what lies before
    [a] is grouped the same way whether or not [b] joins. *)
Lemma sessions_of_around (pre post : list commit) (a b : commit) :
  exists L l,
    concat L ++ l = pre
    /\ sessions_of (pre ++ a :: b :: post) =
       if same_session a b
       then L ++ (l ++ a :: b :: fst (chunks b post)) :: snd (chunks b post)
       else L ++ (l ++ [a])
              :: (b :: fst (chunks b post)) :: snd (chunks b post).
Proof.
  induction pre as [| p pre IH].
  - exists [], []. split; [reflexivity |].
    cbn [app]. unfold sessions_of. rewrite chunks_step.
    destruct (same_session a b); reflexivity.
  - destruct IH as (L & l & Hpre & Hs).
    cbn [app]. destruct (pre ++ a :: b :: post) as [| c rest] eqn:E.
    { destruct pre; discriminate. }
    rewrite sessions_of_cons, Hs.
    destruct (same_session p c).
    + destruct L as [| s0 L].
      * exists [], (p :: l). split; [cbn in *; congruence |].
        destruct (same_session a b); reflexivity.
      * exists ((p :: s0) :: L), l. split; [cbn in *; congruence |].
        destruct (same_session a b); reflexivity.
    + exists ([p] :: L), l. split; [cbn in *; congruence |].
      destruct (same_session a b); reflexivity.
Qed.

(** ** Claims about group_commits_into_sessions *)

(** C1: for every non-empty commit list the function returns a partition of
    its input: the sessions concatenated in order are the input, and no
    session is empty. *)
Theorem sessions_partition_input (commits : list commit) :
  commits <> [] ->
  exists sessions,
    group_commits_into_sessions commits = Ok sessions
    /\ concat sessions = commits
    /\ Forall (fun s => s <> []) sessions.
Proof.
  intros _. exists (sessions_of commits).
  split; [apply group_commits_into_sessions_eq |].
  split; [apply sessions_of_concat | apply sessions_of_nonempty].
Qed.

Lemma sessions_partition_input_witness :
  scenario_commits <> []
  /\ exists sessions,
       group_commits_into_sessions scenario_commits = Ok sessions
       /\ concat sessions = scenario_commits
       /\ Forall (fun s => s <> []) sessions.
Proof.
  split; [discriminate |].
  apply (sessions_partition_input scenario_commits). discriminate.
Defined.

(** C2: for a chronologically ascending commit list, inside every returned
    session two neighbouring commits are at most MAX_GAP_MINUTES minutes
    apart, and the last commit of a session and the first commit of the next
    session are more than MAX_GAP_MINUTES minutes apart.  (The order of the
    input is not needed for this.) *)
Theorem session_gap_invariant (commits : list commit) :
  chronological commits ->
  exists sessions,
    group_commits_into_sessions commits = Ok sessions
    /\ (forall s l a b r,
          In s sessions -> s = l ++ a :: b :: r ->
          gap_micros a b <= max_gap_micros)
    /\ (forall L s1 s2 R l a b r,
          sessions = L ++ s1 :: s2 :: R -> s1 = l ++ [a] -> s2 = b :: r ->
          max_gap_micros < gap_micros a b).
Proof.
  intros _. exists (sessions_of commits).
  split; [apply group_commits_into_sessions_eq |]. split.
  - intros s l a b r Hin Hs.
    apply same_session_true.
    pose proof (sessions_of_linked commits) as Hl.
    rewrite List.Forall_forall in Hl.
    exact (linked_pair s l r a b (Hl s Hin) Hs).
  - intros L s1 s2 R l a b r Hss Hs1 Hs2.
    apply same_session_false.
    exact (separated_pair _ L R s1 s2 (sessions_of_separated commits) Hss
             l a b r Hs1 Hs2).
Qed.

Lemma scenario_chronological : chronological scenario_commits.
Proof.
  unfold chronological, scenario_commits.
  repeat constructor; vm_compute; discriminate.
Defined.

Lemma session_gap_invariant_witness :
  chronological scenario_commits
  /\ exists sessions,
       group_commits_into_sessions scenario_commits = Ok sessions
       /\ (forall s l a b r,
             In s sessions -> s = l ++ a :: b :: r ->
             gap_micros a b <= max_gap_micros)
       /\ (forall L s1 s2 R l a b r,
             sessions = L ++ s1 :: s2 :: R -> s1 = l ++ [a] -> s2 = b :: r ->
             max_gap_micros < gap_micros a b).
Proof.
  split; [exact scenario_chronological |].
  apply (session_gap_invariant scenario_commits).
  exact scenario_chronological.
Defined.

(** C6: the comparison with the threshold is inclusive.  When two
    neighbouring commits [a], [b] of the input are exactly MAX_GAP_MINUTES
    minutes apart, [b] is in the session of [a], right after it; when they
    are more than MAX_GAP_MINUTES minutes apart, the session of [a] ends
    with [a] and the next session starts with [b]. *)
Theorem threshold_is_inclusive (pre post : list commit) (a b : commit) :
  (gap_micros a b = max_gap_micros ->
   exists L l r R,
     group_commits_into_sessions (pre ++ a :: b :: post)
     = Ok (L ++ (l ++ a :: b :: r) :: R)
     /\ concat L ++ l = pre)
  /\ (max_gap_micros < gap_micros a b ->
      exists L l r R,
        group_commits_into_sessions (pre ++ a :: b :: post)
        = Ok (L ++ (l ++ [a]) :: (b :: r) :: R)
        /\ concat L ++ l = pre).
Proof.
  destruct (sessions_of_around pre post a b) as (L & l & Hpre & Hs).
  rewrite group_commits_into_sessions_eq, Hs.
  split; intros Hgap.
  - assert (same_session a b = true) as ->
      by (apply same_session_true; lia).
    exists L, l, (fst (chunks b post)), (snd (chunks b post)).
    split; [reflexivity | exact Hpre].
  - assert (same_session a b = false) as ->
      by (apply same_session_false; exact Hgap).
    exists L, l, (fst (chunks b post)), (snd (chunks b post)).
    split; [reflexivity | exact Hpre].
Qed.

Lemma threshold_is_inclusive_witness :
  (gap_micros (commit_at 0 50) (commit_at 5400 10) = max_gap_micros
   /\ exists L l r R,
        group_commits_into_sessions [commit_at 0 50; commit_at 5400 10]
        = Ok (L ++ (l ++ commit_at 0 50 :: commit_at 5400 10 :: r) :: R)
        /\ concat L ++ l = [])
  /\ (max_gap_micros < gap_micros (commit_at 0 50) (commit_at 5401 10)
      /\ exists L l r R,
           group_commits_into_sessions [commit_at 0 50; commit_at 5401 10]
           = Ok (L ++ (l ++ [commit_at 0 50]) :: (commit_at 5401 10 :: r) :: R)
           /\ concat L ++ l = []).
Proof.
  split; (split; [reflexivity |]).
  - apply (proj1 (threshold_is_inclusive [] [] (commit_at 0 50)
                    (commit_at 5400 10))).
    reflexivity.
  - apply (proj2 (threshold_is_inclusive [] [] (commit_at 0 50)
                    (commit_at 5401 10))).
    reflexivity.
Defined.

(** C9: a history of one commit gives exactly one session, holding exactly
    that commit. *)
Theorem single_commit_single_session (c : commit) :
  group_commits_into_sessions [c] = Ok [[c]].
Proof.
  rewrite group_commits_into_sessions_eq.
  unfold sessions_of, chunks. reflexivity.
Qed.

(** ** Claims about estimate_session_time *)

Lemma estimate_session_time_value (session : list commit)
    (first last_c : commit) :
  head session = Some first ->
  last session = Some last_c ->
  estimate_session_time session
  = Ok (total_seconds (dt_sub (timestamp last_c) (timestamp first))
        / inject_Z 60
        + pre_commit_buffer first)%Q.
Proof.
  intros Hhead Hlast.
  apply head_Some in Hhead as [rest ->].
  assert (py_getitem (first :: rest) (-1) = Ok last_c) as Hget.
  { apply last_Some in Hlast as [l ->]. apply py_getitem_last. }
  unfold estimate_session_time. cbn [list_truthy negb].
  rewrite py_getitem_first, Hget. reflexivity.
Qed.

Lemma span_minutes (a b : datetime) :
  (total_seconds (dt_sub b a) / inject_Z 60 == minutes_between a b)%Q.
Proof.
  unfold minutes_between, total_seconds, dt_sub, Qeq, Qdiv. simpl. lia.
Qed.



Lemma chronological_first_last (first last_c : commit) (rest : list commit) :
  chronological (first :: rest) ->
  last (first :: rest) = Some last_c ->
  micros (timestamp first) <= micros (timestamp last_c).
Proof.
  intros Hsorted Hlast.
  apply Sorted_StronglySorted in Hsorted; [| intros x y z; lia].
  apply StronglySorted_inv in Hsorted as [_ Hall].
  apply last_Some_elem_of, elem_of_cons in Hlast as [-> | Hin]; [lia |].
  rewrite Forall_forall in Hall. exact (Hall _ Hin).
Qed.




(** ** The total printed by main *)

Lemma estimate_session_time_total (session : list commit) :
  exists q, estimate_session_time session = Ok q.
Proof.
  destruct session as [| first rest]; [exists 0%Q; reflexivity |].
  destruct (last (first :: rest)) as [last_c |] eqn:Hlast;
    [| apply last_None in Hlast; discriminate].
  eexists.
  exact (estimate_session_time_value (first :: rest) first last_c
           eq_refl Hlast).
Qed.

Lemma report_body_run (total_minutes t : Q) (i : Z) (s : list commit) :
  estimate_session_time s = Ok t ->
  report_body total_minutes (i, s)
  = IO [CallEstimate s; Print (SessionReport i (length s) t)]
       (Ok (total_minutes + t)%Q).
Proof. intros H. unfold report_body. rewrite H. reflexivity. Qed.

Lemma report_loop (sessions : list (list commit)) (i : Z) (total_minutes : Q) :
  exists times,
    Forall2 (fun s t => estimate_session_time s = Ok t) sessions times
    /\ for_each_io report_body (enumerate i sessions) total_minutes
       = IO (session_events i sessions times)
            (Ok (fold_left Qplus times total_minutes)).
Proof.
  revert i total_minutes.
  induction sessions as [| s sessions IH]; intros i total_minutes.
  - exists []. split; [constructor | reflexivity].
  - destruct (estimate_session_time_total s) as [t Ht].
    destruct (IH (i + 1) (total_minutes + t)%Q) as (times & Hall & Hrun).
    exists (t :: times). split; [constructor; assumption |].
    cbn [enumerate for_each_io].
    rewrite (report_body_run _ t) by exact Ht.
    unfold mbind at 1, io_bind. cbn [outcome trace].
    rewrite Hrun. reflexivity.
Qed.

Lemma fold_left_Qplus (times : list Q) (start : Q) :
  (fold_left Qplus times start == start + Qsum times)%Q.
Proof.
  revert start. induction times as [| t times IH]; intros start.
  - cbn. ring.
  - cbn [fold_left Qsum fold_right]. rewrite IH. fold (Qsum times). ring.
Qed.

Lemma report_sessions_run (sessions : list (list commit)) :
  exists times total,
    Forall2 (fun s t => estimate_session_time s = Ok t) sessions times
    /\ report_sessions sessions
       = IO (session_events 1 sessions times
             ++ [Print (Text summary_header);
                 Print (TotalReport (total / inject_Z 60))])
            (Ok total)
    /\ (total == Qsum times)%Q.
Proof.
  destruct (report_loop sessions 1 0%Q) as (times & Hall & Hrun).
  exists times, (fold_left Qplus times 0%Q).
  split; [exact Hall |]. split.
  - unfold report_sessions. rewrite Hrun. reflexivity.
  - rewrite fold_left_Qplus. ring.
Qed.

Lemma main_run_nonempty (fromtimestamp : Z -> result datetime)
    (int_max_str_digits : nat) (run : result string) (commits : list commit) :
  get_git_commit_data fromtimestamp int_max_str_digits run
  = Ok commits ->
  commits <> [] ->
  main fromtimestamp int_max_str_digits run
  = IO ([Print (Text "Gathering commit data...");
         Print (FoundCommits (length commits));
         CallGroup commits;
         Print (GroupedInto (length (sessions_of commits)))]
        ++ trace (report_sessions (sessions_of commits)))
       (Ok tt).
Proof.
  intros Hget Hne. unfold main. rewrite Hget.
  destruct commits as [| c rest]; [contradiction |].
  destruct (report_sessions_run (sessions_of (c :: rest)))
    as (times & total & _ & Hrun & _).
  unfold print, emit, lift.
  cbn [mbind io_bind outcome trace negb list_truthy].
  rewrite group_commits_into_sessions_eq, Hrun.
  cbn [mbind mret io_bind io_ret outcome trace app].
  rewrite app_nil_r. reflexivity.
Qed.

(** ** The extractor's loop *)

Section Extractor.

Variable fromtimestamp : Z -> result datetime.
Variable int_max_str_digits : nat.

(** [int] raises nothing but ValueError. *)
Lemma py_int_raises (s : string) (e : exn) :
  py_int int_max_str_digits s = Raise e -> e = ValueError.
Proof.
  unfold py_int.
  destruct (strip s) as [| c r]; cbn.
  - intros [= <-]. reflexivity.
  - destruct (match c with
              | "-"%char => (true, r)
              | "+"%char => (false, r)
              | _ => (false, String c r)
              end) as [negative digits].
    destruct (parse_digits digits false 0 0) as [[count v] |].
    + destruct (_ && _); [intros [= <-]; reflexivity | discriminate].
    + intros [= <-]. reflexivity.
Qed.

Lemma field_count_cases (s : string) :
  (exists n, (if isdigit s then py_int int_max_str_digits s else Ok 0) = Ok n)
  \/ (if isdigit s then py_int int_max_str_digits s else Ok 0)
     = Raise ValueError.
Proof.
  destruct (isdigit s); [| left; exists 0; reflexivity].
  destruct (py_int int_max_str_digits s) as [n | e] eqn:E;
    [left; exists n; reflexivity |].
  right. apply py_int_raises in E. subst e. reflexivity.
Qed.

(** The [try] block always yields a pair of counts. *)
Lemma numstat_counts_total (added_str removed_str : string) :
  exists added removed,
    numstat_counts int_max_str_digits added_str removed_str
    = Ok (added, removed).
Proof.
  unfold numstat_counts.
  destruct (field_count_cases added_str) as [[a ->] | ->];
    [| exists 0, 0; reflexivity].
  destruct (field_count_cases removed_str) as [[r ->] | ->];
    [exists a, r | exists 0, 0]; reflexivity.
Qed.

Lemma numstat_counts_both_placeholders (added_str removed_str : string) :
  isdigit added_str = false -> isdigit removed_str = false ->
  numstat_counts int_max_str_digits added_str removed_str = Ok (0, 0).
Proof. intros Ha Hr. unfold numstat_counts. rewrite Ha, Hr. reflexivity. Qed.

Lemma numstat_counts_added_placeholder (added_str removed_str : string)
    (n : Z) :
  isdigit added_str = false -> isdigit removed_str = true ->
  py_int int_max_str_digits removed_str = Ok n ->
  numstat_counts int_max_str_digits added_str removed_str = Ok (0, n).
Proof.
  intros Ha Hr Hn. unfold numstat_counts. rewrite Ha, Hr, Hn. reflexivity.
Qed.

Lemma numstat_counts_removed_placeholder (added_str removed_str : string)
    (n : Z) :
  isdigit added_str = true -> py_int int_max_str_digits added_str = Ok n ->
  isdigit removed_str = false ->
  numstat_counts int_max_str_digits added_str removed_str = Ok (n, 0).
Proof.
  intros Ha Hn Hr. unfold numstat_counts. rewrite Ha, Hr, Hn. reflexivity.
Qed.

(** When [int] rejects a field made of digit characters, the handler sets
    both counts to zero. *)
Lemma numstat_counts_value_error (added_str removed_str : string) :
  (isdigit added_str = true
   /\ py_int int_max_str_digits added_str = Raise ValueError)
  \/ (isdigit removed_str = true
      /\ py_int int_max_str_digits removed_str = Raise ValueError) ->
  numstat_counts int_max_str_digits added_str removed_str = Ok (0, 0).
Proof.
  unfold numstat_counts.
  intros [[Ha Hn] | [Hr Hn]].
  - rewrite Ha, Hn. reflexivity.
  - rewrite Hr, Hn.
    destruct (field_count_cases added_str) as [[a ->] | ->]; reflexivity.
Qed.

Lemma add_lines_zero (c : commit) : add_lines 0 c = c.
Proof. destruct c. unfold add_lines. cbn. f_equal. lia. Qed.

Lemma add_to_current_zero (st : extractor_state) : add_to_current 0 st = st.
Proof.
  unfold add_to_current. destruct st as [h cs [cur |]]; cbn; [| reflexivity].
  f_equal. apply list_alter_id. intros c. apply add_lines_zero.
Qed.

(** A line that is not a commit line and has three fields, read while a
    record is current. *)
Lemma process_numstat_line (st : extractor_state) (line : string)
    (added_str removed_str path : string) (cur : nat) (added removed : Z) :
  time_hash_pattern_match line = None ->
  split tab (strip line) = [added_str; removed_str; path] ->
  current_commit st = Some cur ->
  numstat_counts int_max_str_digits added_str removed_str
  = Ok (added, removed) ->
  process_line fromtimestamp int_max_str_digits st line
  = Ok (add_to_current (added + removed) st).
Proof.
  intros Hm Hs Hc Hn. unfold process_line, add_to_current.
  rewrite Hm, Hs, Hc, Hn. reflexivity.
Qed.

(** Any other line that is not a commit line. *)
Lemma process_other_line (st : extractor_state) (line : string) :
  time_hash_pattern_match line = None ->
  length (split tab (strip line)) <> 3%nat \/ current_commit st = None ->
  process_line fromtimestamp int_max_str_digits st line = Ok st.
Proof.
  intros Hm Hor. unfold process_line. rewrite Hm.
  destruct (split tab (strip line)) as [| a [| b [| c [| d l]]]];
    try reflexivity.
  destruct Hor as [Hlen | ->]; [cbn in Hlen; lia | reflexivity].
Qed.

(** *** The references stay well-formed *)

Lemma wf_state_initial : wf_state (ExtractorState [] [] None).
Proof. split; reflexivity. Qed.

Lemma wf_add_to_current (k : Z) (st : extractor_state) :
  wf_state st -> wf_state (add_to_current k st).
Proof.
  intros Hwf. unfold add_to_current.
  destruct (current_commit st) as [cur |] eqn:E; [| exact Hwf].
  destruct Hwf as [Hc Hl]. split; cbn [heap commits current_commit].
  - rewrite length_alter. exact Hc.
  - rewrite <- E. exact Hl.
Qed.

Lemma wf_process_line (st st' : extractor_state) (line : string) :
  wf_state st ->
  process_line fromtimestamp int_max_str_digits st line = Ok st' ->
  wf_state st'.
Proof.
  intros Hwf. unfold process_line.
  destruct (time_hash_pattern_match line) as [[epoch_str commit_hash] |].
  - destruct (py_int int_max_str_digits epoch_str) as [epoch | e];
      [| discriminate].
    cbn [mbind result_bind].
    destruct (fromtimestamp epoch) as [ts | e]; [| discriminate].
    cbn [mbind result_bind]. intros [= <-].
    destruct Hwf as [Hc _]. split; cbn [heap commits current_commit].
    + rewrite Hc, length_app. cbn [length].
      rewrite seq_app. reflexivity.
    + rewrite last_snoc. reflexivity.
  - destruct (split tab (strip line)) as [| a [| r [| p [| x l]]]];
      try (intros [= <-]; exact Hwf).
    destruct (current_commit st) as [cur |] eqn:E;
      [| intros [= <-]; exact Hwf].
    destruct (numstat_counts_total a r) as (added & removed & ->).
    cbn [mbind result_bind]. intros [= <-].
    pose proof (wf_add_to_current (added + removed) st Hwf) as H.
    unfold add_to_current in H. rewrite E in H. exact H.
Qed.

Lemma wf_for_each (lines : list string) (st st' : extractor_state) :
  wf_state st ->
  for_each (process_line fromtimestamp int_max_str_digits) lines st = Ok st' ->
  wf_state st'.
Proof.
  revert st. induction lines as [| line lines IH]; intros st Hwf.
  - intros [= <-]. exact Hwf.
  - cbn [for_each].
    destruct (process_line fromtimestamp int_max_str_digits st line)
      as [st1 | e] eqn:E; [| discriminate].
    cbn [mbind result_bind]. apply IH. exact (wf_process_line _ _ _ Hwf E).
Qed.

Lemma omap_lookup_seq (pre l : list commit) :
  omap (fun ref => (pre ++ l) !! ref) (seq (length pre) (length l)) = l.
Proof.
  revert pre. induction l as [| c l IH]; intros pre; [reflexivity |].
  cbn [length seq omap list_omap].
  rewrite list_lookup_middle by reflexivity.
  specialize (IH (pre ++ [c])).
  rewrite <- app_assoc, length_app in IH. cbn [app length] in IH.
  replace (length pre + 1)%nat with (S (length pre)) in IH by lia.
  fold (omap (fun ref => (pre ++ c :: l) !! ref)
             (seq (S (length pre)) (length l))).
  rewrite IH. reflexivity.
Qed.

(** In a well-formed state the list [commits] shows the records of the
    store, each once, in order. *)
Lemma returned_wf (st : extractor_state) : wf_state st -> returned st = heap st.
Proof.
  intros [Hc _]. unfold returned. rewrite Hc.
  exact (omap_lookup_seq [] (heap st)).
Qed.

(** In a well-formed state [current_commit] refers to a record of the
    store, and counting [k] lines changes that record and no other. *)
Lemma add_to_current_record (k : Z) (st : extractor_state) (cur : nat) :
  wf_state st ->
  current_commit st = Some cur ->
  exists c,
    heap st !! cur = Some c
    /\ heap (add_to_current k st) !! cur = Some (add_lines k c)
    /\ forall j, j <> cur -> heap (add_to_current k st) !! j = heap st !! j.
Proof.
  intros [Hc Hl] Hcur.
  assert (cur < length (heap st))%nat as Hlt.
  { rewrite Hcur, Hc in Hl. symmetry in Hl.
    apply last_Some_elem_of, elem_of_seq in Hl. lia. }
  destruct (lookup_lt_is_Some_2 _ _ Hlt) as [c Hlook].
  exists c. unfold add_to_current. rewrite Hcur. cbn [heap].
  split; [exact Hlook |]. split.
  - rewrite list_lookup_alter_eq, Hlook. reflexivity.
  - intros j Hj. apply list_lookup_alter_ne. congruence.
Qed.

Lemma get_git_commit_data_returns (run : result string) (cs : list commit) :
  get_git_commit_data fromtimestamp int_max_str_digits run = Ok cs ->
  exists stdout st,
    run = Ok stdout
    /\ for_each (process_line fromtimestamp int_max_str_digits)
         (split newline (strip stdout)) (ExtractorState [] [] None) = Ok st
    /\ wf_state st
    /\ cs = heap st.
Proof.
  unfold get_git_commit_data.
  destruct run as [stdout | e]; [| discriminate]. cbn [mbind result_bind].
  destruct (for_each _ _ _) as [st | e] eqn:E; [| discriminate].
  cbn [mbind result_bind mret result_ret]. intros [= <-].
  pose proof (wf_for_each _ _ _ wf_state_initial E) as Hwf.
  exists stdout, st. repeat split; try assumption.
  - exact (proj1 Hwf).
  - exact (proj2 Hwf).
  - apply returned_wf. exact Hwf.
Qed.

End Extractor.

(** ** Claims about the extractor *)

(** C4, as stated, fails: the line [5<TAB>-<TAB>f] has a non-numeric removed
    count and still adds 5 to lines_changed of the current record. *)
Lemma one_sided_placeholder_is_counted :
  split tab (strip (line_of ["5"%string; "-"%string; "f"%string]))
  = ["5"%string; "-"%string; "f"%string]
  /\ isdigit "-" = false
  /\ get_git_commit_data utc_fromtimestamp default_max_str_digits
       (Ok one_sided_log)
     = Ok [Commit (Datetime 1675076488000000) "abc123" 5]
  /\ get_git_commit_data utc_fromtimestamp default_max_str_digits
       (Ok "1675076488 abc123"%string)
     = Ok [Commit (Datetime 1675076488000000) "abc123" 0].
Proof. repeat split; vm_compute; reflexivity. Qed.

(** C4, amended: on a line that is not a commit line the extractor never
    raises.  If the line has three tab-separated fields and a record is
    current, each count field is taken on its own: when both are
    non-numeric the line adds nothing; when one is non-numeric it counts as
    zero and the number in the other is still added.  A line without three
    fields, or read before the first commit line, changes nothing.  (When
    [int] rejects a field made of digit characters, the handler counts both
    fields as zero.) *)
Theorem numstat_placeholder_fields (fromtimestamp : Z -> result datetime)
    (int_max_str_digits : nat) (st : extractor_state) (line : string) :
  time_hash_pattern_match line = None ->
  (exists st', process_line fromtimestamp int_max_str_digits st line = Ok st')
  /\ (forall added_str removed_str path cur,
        split tab (strip line) = [added_str; removed_str; path] ->
        current_commit st = Some cur ->
        (isdigit added_str = false -> isdigit removed_str = false ->
         process_line fromtimestamp int_max_str_digits st line = Ok st)
        /\ (forall n,
              isdigit added_str = false ->
              isdigit removed_str = true ->
              py_int int_max_str_digits removed_str = Ok n ->
              process_line fromtimestamp int_max_str_digits st line
              = Ok (add_to_current n st))
        /\ (forall n,
              isdigit added_str = true ->
              py_int int_max_str_digits added_str = Ok n ->
              isdigit removed_str = false ->
              process_line fromtimestamp int_max_str_digits st line
              = Ok (add_to_current n st))
        /\ ((isdigit added_str = true
             /\ py_int int_max_str_digits added_str = Raise ValueError)
            \/ (isdigit removed_str = true
                /\ py_int int_max_str_digits removed_str = Raise ValueError) ->
            process_line fromtimestamp int_max_str_digits st line = Ok st))
  /\ (length (split tab (strip line)) <> 3%nat \/ current_commit st = None ->
      process_line fromtimestamp int_max_str_digits st line = Ok st).
Proof.
  intros Hm. split; [| split].
  - destruct (split tab (strip line)) as [| a [| r [| p [| x l]]]] eqn:Hs;
      try (exists st; apply process_other_line;
           [exact Hm | left; rewrite Hs; cbn; lia]).
    destruct (current_commit st) as [cur |] eqn:Hc;
      [| exists st; apply process_other_line; [exact Hm | right; exact Hc]].
    destruct (numstat_counts_total int_max_str_digits a r)
      as (added & removed & Hn).
    eexists.
    exact (process_numstat_line _ _ _ _ _ _ _ _ _ _ Hm Hs Hc Hn).
  - intros added_str removed_str path cur Hs Hc. split; [| split; [| split]].
    + intros Ha Hr.
      rewrite (process_numstat_line _ _ _ _ _ _ _ _ _ _ Hm Hs Hc
                 (numstat_counts_both_placeholders _ _ _ Ha Hr)).
      cbn [Z.add]. rewrite add_to_current_zero. reflexivity.
    + intros n Ha Hr Hn.
      rewrite (process_numstat_line _ _ _ _ _ _ _ _ _ _ Hm Hs Hc
                 (numstat_counts_added_placeholder _ _ _ _ Ha Hr Hn)).
      rewrite Z.add_0_l. reflexivity.
    + intros n Ha Hn Hr.
      rewrite (process_numstat_line _ _ _ _ _ _ _ _ _ _ Hm Hs Hc
                 (numstat_counts_removed_placeholder _ _ _ _ Ha Hn Hr)).
      rewrite Z.add_0_r. reflexivity.
    + intros Herr.
      rewrite (process_numstat_line _ _ _ _ _ _ _ _ _ _ Hm Hs Hc
                 (numstat_counts_value_error _ _ _ Herr)).
      cbn [Z.add]. rewrite add_to_current_zero. reflexivity.
  - apply process_other_line. exact Hm.
Qed.

Lemma numstat_placeholder_fields_witness :
  time_hash_pattern_match (line_of ["5"%string; "-"%string; "f"%string]) = None
  /\ process_line utc_fromtimestamp default_max_str_digits one_commit_state
       (line_of ["5"%string; "-"%string; "f"%string])
     = Ok (add_to_current 5 one_commit_state).
Proof.
  split; [reflexivity |].
  apply (proj1 (proj2 (proj2 (proj1 (proj2
           (numstat_placeholder_fields utc_fromtimestamp
              default_max_str_digits one_commit_state
              (line_of ["5"%string; "-"%string; "f"%string]) eq_refl))
           "5"%string "-"%string "f"%string 0%nat eq_refl eq_refl)))
         5); reflexivity.
Defined.

(** ** Claims about main *)

(** C8: when the extractor returns no commit, main prints the line
    "No commit data found." after its first line and returns; it calls
    neither the grouping nor the estimate and prints none of the other
    lines. *)
Theorem empty_history_stops (fromtimestamp : Z -> result datetime)
    (int_max_str_digits : nat) (run : result string) :
  get_git_commit_data fromtimestamp int_max_str_digits run = Ok [] ->
  main fromtimestamp int_max_str_digits run
  = IO [Print (Text "Gathering commit data...");
        Print (Text "No commit data found.")]
       (Ok tt).
Proof. intros H. unfold main. rewrite H. reflexivity. Qed.

Lemma empty_history_stops_witness :
  get_git_commit_data utc_fromtimestamp default_max_str_digits (Ok EmptyString)
  = Ok []
  /\ main utc_fromtimestamp default_max_str_digits (Ok EmptyString)
     = IO [Print (Text "Gathering commit data...");
           Print (Text "No commit data found.")]
          (Ok tt).
Proof.
  split; [reflexivity |].
  apply (empty_history_stops utc_fromtimestamp default_max_str_digits
           (Ok EmptyString)).
  reflexivity.
Defined.



(** ** Worked examples *)

(** The scenario of the specification: two sessions, of about 17.7 and 0.1
    minutes. *)
Example scenario_sessions :
  group_commits_into_sessions scenario_commits
  = Ok [[commit_at 0 50; commit_at 1000 10]; [commit_at 10000 5]].
Proof. reflexivity. Qed.

Example scenario_first_estimate :
  exists q,
    estimate_session_time [commit_at 0 50; commit_at 1000 10] = Ok q
    /\ (q == 53 # 3)%Q.
Proof. eexists. split; reflexivity. Qed.

Example scenario_second_estimate :
  exists q,
    estimate_session_time [commit_at 10000 5] = Ok q /\ (q == 1 # 10)%Q.
Proof. eexists. split; reflexivity. Qed.

(** The placeholder line of a binary file adds nothing. *)
Example binary_file_line :
  get_git_commit_data utc_fromtimestamp default_max_str_digits
    (Ok (lines_of ["1675076488 abc123"%string;
                   line_of ["-"%string; "-"%string; "binary.png"%string]]))
  = Ok [Commit (Datetime 1675076488000000) "abc123" 0].
Proof. vm_compute. reflexivity. Qed.

(** A digit character that is not a decimal digit reaches the handler. *)
Example superscript_digit_rejected :
  isdigit superscript_two = true
  /\ py_int default_max_str_digits superscript_two = Raise ValueError
  /\ numstat_counts default_max_str_digits "5" superscript_two = Ok (0, 0).
Proof. repeat split; vm_compute; reflexivity. Qed.

(** An exception of the extractor ends main after its first line. *)
Example failed_run_propagates :
  main utc_fromtimestamp default_max_str_digits (Raise CalledProcessError)
  = IO [Print (Text "Gathering commit data...")] (Raise CalledProcessError).
Proof. reflexivity. Qed.

Example epoch_out_of_range :
  get_git_commit_data utc_fromtimestamp default_max_str_digits
    (Ok "99999999999999 abc123"%string)
  = Raise OverflowError.
Proof. vm_compute. reflexivity. Qed.

(** * Further properties *)

(** ** Grouping: number of sessions, locality, time shifts *)

Lemma sessions_of_head_nonempty (c : commit) (rest : list commit) :
  sessions_of (c :: rest) <> [].
Proof. unfold sessions_of. destruct (chunks c rest). discriminate. Qed.

Lemma long_gap_test (a b : commit) :
  (max_gap_micros <? gap_micros a b) = negb (same_session a b).
Proof.
  destruct (same_session a b) eqn:E; cbn [negb].
  - apply same_session_true in E. apply Z.ltb_ge. exact E.
  - apply same_session_false in E. apply Z.ltb_lt. exact E.
Qed.

Lemma long_gaps_cons (a b : commit) (rest : list commit) :
  long_gaps (a :: b :: rest)
  = ((if (max_gap_micros <? gap_micros a b)%Z then 1 else 0)
     + long_gaps (b :: rest))%nat.
Proof. reflexivity. Qed.

Lemma sessions_of_length (c : commit) (rest : list commit) :
  length (sessions_of (c :: rest)) = S (long_gaps (c :: rest)).
Proof.
  revert c. induction rest as [| d rest IH]; intros c; [reflexivity |].
  rewrite sessions_of_cons, long_gaps_cons, long_gap_test.
  specialize (IH d).
  destruct (same_session c d); cbn [negb Nat.add length].
  - rewrite <- IH.
    destruct (sessions_of (d :: rest)) as [| s ss] eqn:E; [| reflexivity].
    exfalso. exact (sessions_of_head_nonempty d rest E).
  - rewrite IH. reflexivity.
Qed.

(** X1: on a non-empty history the function never raises, and the number of
    sessions is one more than the number of neighbouring commits that are
    more than MAX_GAP_MINUTES minutes apart. *)
Theorem session_count_is_long_gaps_plus_one (commits : list commit) :
  commits <> [] ->
  exists sessions,
    group_commits_into_sessions commits = Ok sessions
    /\ length sessions = S (long_gaps commits).
Proof.
  intros Hne. destruct commits as [| c rest]; [contradiction |].
  exists (sessions_of (c :: rest)).
  split; [apply group_commits_into_sessions_eq | apply sessions_of_length].
Qed.

Lemma session_count_is_long_gaps_plus_one_witness :
  scenario_commits <> []
  /\ exists sessions,
       group_commits_into_sessions scenario_commits = Ok sessions
       /\ length sessions = S (long_gaps scenario_commits).
Proof.
  split; [discriminate |].
  apply (session_count_is_long_gaps_plus_one scenario_commits). discriminate.
Defined.

(** X2: two neighbouring commits whose gap is at most the threshold, also a
    zero or negative gap of commits out of order, are always put in the same
    session, one right after the other. *)
Theorem gap_within_threshold_joins (pre post : list commit) (a b : commit) :
  gap_micros a b <= max_gap_micros ->
  exists L l r R,
    group_commits_into_sessions (pre ++ a :: b :: post)
    = Ok (L ++ (l ++ a :: b :: r) :: R)
    /\ concat L ++ l = pre.
Proof.
  intros Hgap.
  destruct (sessions_of_around pre post a b) as (L & l & Hpre & Hs).
  rewrite group_commits_into_sessions_eq, Hs.
  assert (same_session a b = true) as ->
    by (apply same_session_true; exact Hgap).
  exists L, l, (fst (chunks b post)), (snd (chunks b post)).
  split; [reflexivity | exact Hpre].
Qed.

Lemma gap_within_threshold_joins_witness :
  gap_micros (commit_at 1000 10) (commit_at 0 50) <= max_gap_micros
  /\ exists L l r R,
       group_commits_into_sessions
         ([commit_at 10000 5] ++ commit_at 1000 10 :: commit_at 0 50 :: [])
       = Ok (L ++ (l ++ commit_at 1000 10 :: commit_at 0 50 :: r) :: R)
       /\ concat L ++ l = [commit_at 10000 5].
Proof.
  assert (gap_micros (commit_at 1000 10) (commit_at 0 50) <= max_gap_micros)
    as H by (vm_compute; discriminate).
  split; [exact H |].
  apply (gap_within_threshold_joins [commit_at 10000 5] []
           (commit_at 1000 10) (commit_at 0 50) H).
Defined.

Lemma sessions_of_split (pre post : list commit) (a b : commit) :
  same_session a b = false ->
  sessions_of (pre ++ a :: b :: post)
  = sessions_of (pre ++ [a]) ++ sessions_of (b :: post).
Proof.
  intros Hab. induction pre as [| p pre IH].
  - cbn [app]. rewrite sessions_of_cons, Hab. reflexivity.
  - cbn [app].
    destruct (pre ++ a :: b :: post) as [| c rest] eqn:E1;
      [destruct pre; discriminate |].
    destruct (pre ++ [a]) as [| c' rest'] eqn:E2;
      [destruct pre; discriminate |].
    assert (c' = c) as ->.
    { destruct pre; cbn in E1, E2; congruence. }
    rewrite !sessions_of_cons, IH.
    destruct (same_session p c); [| reflexivity].
    destruct (sessions_of (c :: rest')) as [| s ss] eqn:E; [| reflexivity].
    exfalso. exact (sessions_of_head_nonempty c rest' E).
Qed.

(** X3: grouping is local.  A history cut between two neighbouring commits
    that are more than the threshold apart is grouped piece by piece: the
    sessions of the whole are the sessions of the first part followed by
    the sessions of the second part. *)
Theorem grouping_splits_at_long_gap (pre post : list commit) (a b : commit) :
  max_gap_micros < gap_micros a b ->
  exists before after,
    group_commits_into_sessions (pre ++ [a]) = Ok before
    /\ group_commits_into_sessions (b :: post) = Ok after
    /\ group_commits_into_sessions (pre ++ a :: b :: post)
       = Ok (before ++ after).
Proof.
  intros Hgap. apply same_session_false in Hgap.
  exists (sessions_of (pre ++ [a])), (sessions_of (b :: post)).
  rewrite !group_commits_into_sessions_eq, (sessions_of_split _ _ _ _ Hgap).
  repeat split.
Qed.

Lemma grouping_splits_at_long_gap_witness :
  max_gap_micros < gap_micros (commit_at 1000 10) (commit_at 10000 5)
  /\ exists before after,
       group_commits_into_sessions ([commit_at 0 50] ++ [commit_at 1000 10])
       = Ok before
       /\ group_commits_into_sessions (commit_at 10000 5 :: []) = Ok after
       /\ group_commits_into_sessions
            ([commit_at 0 50] ++ commit_at 1000 10 :: commit_at 10000 5 :: [])
          = Ok (before ++ after).
Proof.
  split; [reflexivity |].
  apply (grouping_splits_at_long_gap [commit_at 0 50] []
           (commit_at 1000 10) (commit_at 10000 5)).
  reflexivity.
Defined.

Lemma same_session_shift (delta : Z) (a b : commit) :
  same_session (shift_commit delta a) (shift_commit delta b)
  = same_session a b.
Proof.
  unfold same_session, time_diff, dt_sub, shift_commit. cbn [timestamp micros].
  replace (micros (timestamp b) + delta - (micros (timestamp a) + delta))
    with (micros (timestamp b) - micros (timestamp a)) by lia.
  reflexivity.
Qed.

Lemma chunks_shift (delta : Z) (rest : list commit) (prev : commit) :
  chunks (shift_commit delta prev) (map (shift_commit delta) rest)
  = (map (shift_commit delta) (fst (chunks prev rest)),
     map (map (shift_commit delta)) (snd (chunks prev rest))).
Proof.
  revert prev. induction rest as [| c rest IH]; intros prev; [reflexivity |].
  cbn [map]. rewrite !chunks_step, IH, same_session_shift.
  destruct (same_session prev c); reflexivity.
Qed.

(** X4: grouping looks at differences of timestamps only.  Moving every
    commit of a history by the same amount of time (another time zone, a
    clock that was off) gives the same sessions, moved by that amount. *)
Theorem grouping_ignores_time_shift (delta : Z) (commits : list commit) :
  exists sessions,
    group_commits_into_sessions commits = Ok sessions
    /\ group_commits_into_sessions (map (shift_commit delta) commits)
       = Ok (map (map (shift_commit delta)) sessions).
Proof.
  exists (sessions_of commits).
  rewrite !group_commits_into_sessions_eq. split; [reflexivity |].
  destruct commits as [| c rest]; [reflexivity |].
  cbn [map]. unfold sessions_of. rewrite chunks_shift.
  destruct (chunks c rest). reflexivity.
Qed.

(** ** The estimate: what it depends on, how it grows, how large it gets *)

(** X5: the estimate of a session is decided by the timestamps of its first
    and last commit and by lines_changed of its first commit; the commits in
    between and the lines of all later commits play no part. *)
Theorem estimate_depends_on_ends_only (s1 s2 : list commit)
    (f1 l1 f2 l2 : commit) :
  head s1 = Some f1 -> last s1 = Some l1 ->
  head s2 = Some f2 -> last s2 = Some l2 ->
  timestamp f1 = timestamp f2 ->
  timestamp l1 = timestamp l2 ->
  lines_changed f1 = lines_changed f2 ->
  estimate_session_time s1 = estimate_session_time s2.
Proof.
  intros Hf1 Hl1 Hf2 Hl2 Hf Hl Hlines.
  rewrite (estimate_session_time_value s1 f1 l1 Hf1 Hl1).
  rewrite (estimate_session_time_value s2 f2 l2 Hf2 Hl2).
  unfold pre_commit_buffer. rewrite Hf, Hl, Hlines. reflexivity.
Qed.

Lemma estimate_depends_on_ends_only_witness :
  estimate_session_time
    [commit_at 0 50; commit_at 300 7; commit_at 600 9; commit_at 1000 10]
  = estimate_session_time [commit_at 0 50; commit_at 1000 999].
Proof.
  apply (estimate_depends_on_ends_only
           [commit_at 0 50; commit_at 300 7; commit_at 600 9; commit_at 1000 10]
           [commit_at 0 50; commit_at 1000 999]
           (commit_at 0 50) (commit_at 1000 10)
           (commit_at 0 50) (commit_at 1000 999));
    reflexivity.
Defined.

Lemma minutes_between_add (a b c : datetime) :
  (minutes_between a c == minutes_between a b + minutes_between b c)%Q.
Proof.
  unfold minutes_between, Qeq, Qplus. cbn [Qnum Qden]. lia.
Qed.



Lemma linked_span (s : list commit) (a z : commit) :
  linked (a :: s) ->
  last (a :: s) = Some z ->
  gap_micros a z <= Z.of_nat (length s) * max_gap_micros.
Proof.
  revert a. induction s as [| b s IH]; intros a Hlinked Hlast.
  - cbn in Hlast. injection Hlast as <-. unfold gap_micros. cbn. lia.
  - destruct Hlinked as [Hab Hrest].
    apply same_session_true in Hab.
    rewrite last_cons_cons in Hlast.
    specialize (IH b Hrest Hlast).
    unfold gap_micros, max_gap_micros, MAX_GAP_MINUTES in *.
    cbn [length]. lia.
Qed.


Lemma last_map_shift (delta : Z) (s : list commit) (z : commit) :
  last s = Some z ->
  last (map (shift_commit delta) s) = Some (shift_commit delta z).
Proof.
  intros H. apply last_Some in H as [l ->].
  rewrite map_app. cbn [map]. apply last_snoc.
Qed.

(** X8: the estimate looks at differences of timestamps only: moving every
    commit of a session by the same amount of time leaves it unchanged. *)
Theorem estimate_ignores_time_shift (delta : Z) (s : list commit) :
  estimate_session_time (map (shift_commit delta) s) = estimate_session_time s.
Proof.
  destruct s as [| first rest]; [reflexivity |].
  destruct (last (first :: rest)) as [last_c |] eqn:Hlast;
    [| apply last_None in Hlast; discriminate].
  rewrite (estimate_session_time_value (first :: rest) first last_c
             eq_refl Hlast).
  rewrite (estimate_session_time_value
             (map (shift_commit delta) (first :: rest))
             (shift_commit delta first) (shift_commit delta last_c)
             eq_refl (last_map_shift delta _ _ Hlast)).
  unfold dt_sub, shift_commit, pre_commit_buffer.
  cbn [timestamp micros lines_changed].
  replace (micros (timestamp last_c) + delta
           - (micros (timestamp first) + delta))
    with (micros (timestamp last_c) - micros (timestamp first)) by lia.
  reflexivity.
Qed.

(** ** Strings and character classes *)

Ltac by_char_cases c :=
  destruct c as [[|] [|] [|] [|] [|] [|] [|] [|]];
  vm_compute; intros; congruence.

Lemma space_not_decimal (c : ascii) :
  isspace_char c = true -> isdecimal_char c = false.
Proof. by_char_cases c. Qed.

Lemma decimal_not_space (c : ascii) :
  isdecimal_char c = true -> isspace_char c = false.
Proof. by_char_cases c. Qed.

Lemma hex_not_space (c : ascii) :
  ishex_char c = true -> isspace_char c = false.
Proof. by_char_cases c. Qed.

Lemma decimal_is_hex (c : ascii) :
  isdecimal_char c = true -> ishex_char c = true.
Proof. by_char_cases c. Qed.

Lemma decimal_is_digit (c : ascii) :
  isdecimal_char c = true -> isdigit_char c = true.
Proof. by_char_cases c. Qed.

Lemma decimal_not_tab (c : ascii) :
  isdecimal_char c = true -> Ascii.eqb c tab = false.
Proof. by_char_cases c. Qed.

Lemma digit_not_space (c : ascii) :
  isdigit_char c = true -> isspace_char c = false.
Proof. by_char_cases c. Qed.

Lemma digit_value_nonneg (c : ascii) :
  isdecimal_char c = true -> 0 <= digit_value c.
Proof.
  destruct c as [[|] [|] [|] [|] [|] [|] [|] [|]];
    vm_compute; intros; congruence.
Qed.

Lemma str_forallb_impl (p q : ascii -> bool) (s : string) :
  (forall c, p c = true -> q c = true) ->
  str_forallb p s = true -> str_forallb q s = true.
Proof.
  intros Hpq. induction s as [| c s IH]; [reflexivity |].
  cbn. intros [Hc Hs]%andb_prop. rewrite (Hpq c Hc), (IH Hs). reflexivity.
Qed.

Lemma str_forallb_append (p : ascii -> bool) (a b : string) :
  str_forallb p (a ++ b) = str_forallb p a && str_forallb p b.
Proof.
  induction a as [| c a IH]; [reflexivity |].
  cbn. rewrite IH. apply andb_assoc.
Qed.

Lemma append_assoc (a b c : string) :
  ((a ++ b) ++ c = a ++ (b ++ c))%string.
Proof.
  induction a as [| x a IH]; [reflexivity |]. cbn. rewrite IH. reflexivity.
Qed.

Lemma append_empty_r (a : string) : (a ++ EmptyString = a)%string.
Proof.
  induction a as [| x a IH]; [reflexivity |]. cbn. rewrite IH. reflexivity.
Qed.

(** What [span] returns: the string is cut in two, the first part is in the
    class and the second does not start in it. *)
Lemma span_spec (p : ascii -> bool) (s a b : string) :
  span p s = (a, b) ->
  s = (a ++ b)%string
  /\ str_forallb p a = true
  /\ match b with
     | EmptyString => True
     | String c _ => p c = false
     end.
Proof.
  revert a b. induction s as [| c s IH]; intros a b.
  - cbn. intros [= <- <-]. auto.
  - cbn. destruct (p c) eqn:Hc.
    + destruct (span p s) as [a' b'] eqn:E.
      intros [= <- <-]. destruct (IH a' b' eq_refl) as (-> & Ha & Hb).
      cbn. rewrite Hc, Ha. auto.
    + intros [= <- <-]. cbn. rewrite Hc. auto.
Qed.

Lemma span_append (p : ascii -> bool) (a b : string) :
  str_forallb p a = true ->
  match b with
  | EmptyString => True
  | String c _ => p c = false
  end ->
  span p (a ++ b) = (a, b).
Proof.
  intros Ha Hb. induction a as [| c a IH].
  - destruct b as [| c b]; [reflexivity |]. cbn. rewrite Hb. reflexivity.
  - cbn in Ha. apply andb_prop in Ha as [Hc Ha].
    cbn. rewrite Hc, (IH Ha). reflexivity.
Qed.

(** ** The commit-line pattern *)

(** X9: a line is taken for a commit line exactly when it is made of one or
    more decimal digits, one or more whitespace characters and one or more
    lower-case hexadecimal digits, with nothing before or after except one
    final newline; the groups are the digits and the hexadecimal part. *)
Theorem commit_line_shape (line epoch_str commit_hash : string) :
  time_hash_pattern_match line = Some (epoch_str, commit_hash)
  <-> exists blank tail,
        line = (epoch_str ++ blank ++ commit_hash ++ tail)%string
        /\ (tail = EmptyString \/ tail = String newline EmptyString)
        /\ epoch_str <> EmptyString
        /\ str_forallb isdecimal_char epoch_str = true
        /\ blank <> EmptyString
        /\ str_forallb isspace_char blank = true
        /\ commit_hash <> EmptyString
        /\ str_forallb ishex_char commit_hash = true.
Proof.
  unfold time_hash_pattern_match. split.
  - destruct (span isdecimal_char line) as [e r1] eqn:E1.
    destruct (span isspace_char r1) as [blank r2] eqn:E2.
    destruct (span ishex_char r2) as [h r3] eqn:E3.
    destruct (span_spec _ _ _ _ E1) as (-> & He & _).
    destruct (span_spec _ _ _ _ E2) as (-> & Hb & _).
    destruct (span_spec _ _ _ _ E3) as (-> & Hh & _).
    destruct e as [| ce e]; [discriminate |].
    destruct blank as [| cb blank]; [discriminate |].
    destruct h as [| ch h]; [discriminate |].
    cbn [str_truthy andb].
    destruct (String.eqb_spec r3 EmptyString) as [-> | Hne1].
    + intros [= <- <-]. exists (String cb blank), EmptyString.
      repeat split; auto; discriminate.
    + destruct (String.eqb_spec r3 (String newline EmptyString)) as [-> | Hne2];
        [| discriminate].
      intros [= <- <-]. exists (String cb blank), (String newline EmptyString).
      repeat split; auto; discriminate.
  - intros (blank & tail & -> & Htail & He0 & He & Hb0 & Hb & Hh0 & Hh).
    destruct epoch_str as [| ce e]; [contradiction |].
    destruct blank as [| cb blank]; [contradiction |].
    destruct commit_hash as [| ch h]; [contradiction |].
    rewrite (span_append isdecimal_char (String ce e)
               (String cb blank ++ String ch h ++ tail) He).
    2:{ cbn. cbn in Hb. apply andb_prop in Hb as [Hcb _].
        apply space_not_decimal. exact Hcb. }
    rewrite (span_append isspace_char (String cb blank)
               (String ch h ++ tail) Hb).
    2:{ cbn. cbn in Hh. apply andb_prop in Hh as [Hch _].
        apply hex_not_space. exact Hch. }
    rewrite (span_append ishex_char (String ch h) tail Hh).
    2:{ destruct Htail as [-> | ->]; [exact I | reflexivity]. }
    cbn [str_truthy andb].
    destruct Htail as [-> | ->]; reflexivity.
Qed.

Lemma commit_line_shape_witness :
  time_hash_pattern_match "1675076488 abc123"
  = Some ("1675076488"%string, "abc123"%string).
Proof.
  apply (proj2 (commit_line_shape "1675076488 abc123" "1675076488" "abc123")).
  exists " "%string, EmptyString.
  repeat split; try reflexivity; try discriminate. left. reflexivity.
Defined.

(** ** Stripping, splitting and reading numbers *)

Lemma lstrip_fixed (c : ascii) (s : string) :
  isspace_char c = false -> lstrip (String c s) = String c s.
Proof. intros H. cbn. rewrite H. reflexivity. Qed.

Lemma rstrip_append (x y : string) :
  rstrip y <> EmptyString -> rstrip (x ++ y) = (x ++ rstrip y)%string.
Proof.
  intros Hy. induction x as [| c x IH]; [reflexivity |].
  cbn [String.append rstrip]. rewrite IH.
  destruct (x ++ rstrip y)%string as [| d r] eqn:E; [| reflexivity].
  destruct x; [cbn in E; contradiction | discriminate].
Qed.

Lemma rstrip_fixed (s : string) :
  str_forallb (fun c => negb (isspace_char c)) s = true -> rstrip s = s.
Proof.
  induction s as [| c s IH]; [reflexivity |].
  cbn. intros [Hc Hs]%andb_prop. rewrite (IH Hs).
  destruct s; [| reflexivity].
  apply negb_true_iff in Hc. rewrite Hc. reflexivity.
Qed.

Lemma strip_decimal (s : string) :
  str_forallb isdecimal_char s = true -> strip s = s.
Proof.
  intros H. unfold strip.
  assert (lstrip s = s) as ->.
  { destruct s as [| c s]; [reflexivity |].
    cbn in H. apply andb_prop in H as [Hc _].
    apply lstrip_fixed, decimal_not_space, Hc. }
  apply rstrip_fixed. revert H. apply str_forallb_impl.
  intros c Hc. rewrite (decimal_not_space c Hc). reflexivity.
Qed.

Lemma split_no_sep (sep : ascii) (s : string) :
  str_forallb (fun c => negb (Ascii.eqb c sep)) s = true ->
  split_pieces sep s = (s, []).
Proof.
  induction s as [| c s IH]; [reflexivity |].
  cbn. intros [Hc Hs]%andb_prop. rewrite (IH Hs).
  apply negb_true_iff in Hc. rewrite Hc. reflexivity.
Qed.

Lemma split_at_sep (sep : ascii) (x y : string) :
  str_forallb (fun c => negb (Ascii.eqb c sep)) x = true ->
  split sep (x ++ String sep y) = x :: split sep y.
Proof.
  unfold split. induction x as [| c x IH].
  - intros _. cbn. rewrite Ascii.eqb_refl.
    destruct (split_pieces sep y). reflexivity.
  - cbn. intros [Hc Hx]%andb_prop. specialize (IH Hx).
    destruct (split_pieces sep (x ++ String sep y)) as [p ps].
    destruct (split_pieces sep y) as [q qs].
    apply negb_true_iff in Hc. rewrite Hc. congruence.
Qed.

Lemma decimal_no_tab (s : string) :
  str_forallb isdecimal_char s = true -> no_tab s = true.
Proof.
  apply str_forallb_impl. intros c Hc.
  rewrite (decimal_not_tab c Hc). reflexivity.
Qed.

Lemma isdigit_decimal (s : string) :
  s <> EmptyString -> str_forallb isdecimal_char s = true -> isdigit s = true.
Proof.
  intros Hne H. unfold isdigit.
  destruct s as [| c s]; [contradiction |]. cbn [str_truthy andb].
  revert H. apply str_forallb_impl, decimal_is_digit.
Qed.

(** On decimal digits the scan of [int] counts every character and computes
    the decimal value. *)
Lemma parse_digits_decimal (s : string) (prev_digit : bool) (count : nat)
    (acc : Z) :
  str_forallb isdecimal_char s = true ->
  s <> EmptyString \/ prev_digit = true ->
  parse_digits s prev_digit count acc
  = Some ((count + String.length s)%nat,
          acc * 10 ^ Z.of_nat (String.length s) + decimal_value s).
Proof.
  revert prev_digit count acc.
  induction s as [| c s IH]; intros prev_digit count acc Hs Hne.
  - destruct Hne as [Hne | ->]; [contradiction |].
    cbn. f_equal. f_equal; [lia |].
    change (Z.of_nat 0) with 0. rewrite Z.pow_0_r. ring.
  - cbn in Hs. apply andb_prop in Hs as [Hc Hs].
    cbn [parse_digits]. rewrite Hc, (IH true _ _ Hs) by (right; reflexivity).
    f_equal. cbn [String.length decimal_value]. f_equal; [lia |].
    rewrite Nat2Z.inj_succ, Z.pow_succ_r by lia. ring.
Qed.

Lemma sign_split_other (c : ascii) (r : string) :
  c <> "-"%char -> c <> "+"%char ->
  match String c r with
  | String "-"%char r' => (true, r')
  | String "+"%char r' => (false, r')
  | _ => (false, String c r)
  end = (false, String c r).
Proof.
  intros Hm Hp.
  destruct c as [[|] [|] [|] [|] [|] [|] [|] [|]];
    try reflexivity; congruence.
Qed.

Lemma digit_not_sign (c : ascii) :
  isdigit_char c = true -> c <> "-"%char /\ c <> "+"%char.
Proof.
  intros H. split; intros ->; vm_compute in H; discriminate.
Qed.

Section Numbers.

Variable fromtimestamp : Z -> result datetime.
Variable int_max_str_digits : nat.

(** [int] on a non-empty string of decimal digits, within the limit on the
    number of digits, gives its decimal value. *)
Lemma py_int_decimal (s : string) :
  s <> EmptyString ->
  str_forallb isdecimal_char s = true ->
  (int_max_str_digits = 0 \/ String.length s <= int_max_str_digits)%nat ->
  py_int int_max_str_digits s = Ok (decimal_value s).
Proof.
  intros Hne Hs Hlim. unfold py_int. rewrite (strip_decimal s Hs).
  destruct s as [| c s]; [contradiction |].
  assert (isdigit_char c = true) as Hc.
  { cbn in Hs. apply andb_prop in Hs as [Hc _].
    apply decimal_is_digit, Hc. }
  destruct (digit_not_sign c Hc) as [Hm Hp].
  rewrite (sign_split_other c s Hm Hp).
  rewrite (parse_digits_decimal (String c s) false 0 0 Hs)
    by (left; discriminate).
  cbn [Nat.add].
  assert (Nat.ltb 0 int_max_str_digits
          && Nat.ltb int_max_str_digits (String.length (String c s)) = false)
    as ->.
  { destruct Hlim as [-> | Hle]; [reflexivity |].
    apply andb_false_iff. right. apply Nat.ltb_ge. exact Hle. }
  reflexivity.
Qed.

Lemma numstat_line_is_no_commit_line (a r path : string) :
  str_forallb isdecimal_char a = true ->
  r <> EmptyString ->
  str_forallb isdecimal_char r = true ->
  time_hash_pattern_match (line_of [a; r; path]) = None.
Proof.
  intros Ha Hr0 Hr.
  change (line_of [a; r; path])
    with (a ++ String tab (r ++ String tab path))%string.
  unfold time_hash_pattern_match.
  rewrite (span_append isdecimal_char a _ Ha) by reflexivity.
  destruct r as [| cr r]; [contradiction |].
  assert (isdecimal_char cr = true) as Hcr.
  { cbn in Hr. apply andb_prop in Hr as [Hcr _]. exact Hcr. }
  change (String tab (String cr r ++ String tab path))
    with (String tab EmptyString ++ (String cr r ++ String tab path))%string.
  rewrite (span_append isspace_char (String tab EmptyString) _ eq_refl)
    by (cbn; apply decimal_not_space, Hcr).
  rewrite (span_append ishex_char (String cr r) (String tab path))
    by (try reflexivity; revert Hr; apply str_forallb_impl, decimal_is_hex).
  destruct a; reflexivity.
Qed.

Lemma numstat_line_fields (a r path : string) :
  a <> EmptyString ->
  str_forallb isdecimal_char a = true ->
  str_forallb isdecimal_char r = true ->
  path <> EmptyString ->
  no_tab path = true ->
  rstrip path = path ->
  split tab (strip (line_of [a; r; path])) = [a; r; path].
Proof.
  intros Ha0 Ha Hr Hp0 Hp Hstrip.
  change (line_of [a; r; path])
    with (a ++ String tab (r ++ String tab path))%string.
  assert (strip (a ++ String tab (r ++ String tab path))
          = (a ++ String tab (r ++ String tab path))%string) as ->.
  { unfold strip.
    destruct a as [| ca a]; [contradiction |].
    cbn in Ha. apply andb_prop in Ha as [Hca _].
    cbn [String.append].
    rewrite (lstrip_fixed ca _ (decimal_not_space ca Hca)).
    change (String ca (a ++ String tab (r ++ String tab path)))
      with (String ca a ++ String tab EmptyString
            ++ r ++ String tab EmptyString ++ path)%string.
    rewrite <- !append_assoc.
    rewrite rstrip_append by (rewrite Hstrip; exact Hp0).
    rewrite Hstrip. reflexivity. }
  rewrite (split_at_sep tab a _ (decimal_no_tab a Ha)).
  rewrite (split_at_sep tab r _ (decimal_no_tab r Hr)).
  unfold split. unfold no_tab in Hp. rewrite (split_no_sep tab path Hp).
  reflexivity.
Qed.

(** X10: a statistics line of the usual form, a decimal added count, a tab,
    a decimal removed count, a tab and a path (not empty, without tab, not
    ending in whitespace), read while a record is current, adds the sum of
    the two counts to that record. *)
Theorem numstat_line_adds_both_counts (st : extractor_state) (cur : nat)
    (a r path : string) :
  current_commit st = Some cur ->
  a <> EmptyString -> str_forallb isdecimal_char a = true ->
  r <> EmptyString -> str_forallb isdecimal_char r = true ->
  path <> EmptyString -> no_tab path = true -> rstrip path = path ->
  (int_max_str_digits = 0
   \/ (String.length a <= int_max_str_digits
       /\ String.length r <= int_max_str_digits))%nat ->
  process_line fromtimestamp int_max_str_digits st (line_of [a; r; path])
  = Ok (add_to_current (decimal_value a + decimal_value r) st).
Proof.
  intros Hcur Ha0 Ha Hr0 Hr Hp0 Hp Hstrip Hlim.
  apply (process_numstat_line fromtimestamp int_max_str_digits st _
           a r path cur).
  - apply numstat_line_is_no_commit_line; assumption.
  - apply numstat_line_fields; assumption.
  - exact Hcur.
  - unfold numstat_counts.
    rewrite (isdigit_decimal a Ha0 Ha), (isdigit_decimal r Hr0 Hr).
    rewrite (py_int_decimal a Ha0 Ha) by tauto.
    rewrite (py_int_decimal r Hr0 Hr) by tauto.
    reflexivity.
Qed.

End Numbers.

Lemma numstat_line_adds_both_counts_witness :
  process_line utc_fromtimestamp default_max_str_digits one_commit_state
    (line_of ["4"%string; "2"%string; "path/to/file"%string])
  = Ok (add_to_current 6 one_commit_state).
Proof.
  apply (numstat_line_adds_both_counts utc_fromtimestamp
           default_max_str_digits one_commit_state 0%nat
           "4" "2" "path/to/file");
    try reflexivity; try discriminate.
  right. unfold default_max_str_digits. split; cbn; lia.
Defined.

(** ** The extractor's loop as a whole *)

Lemma strip_no_space (s : string) :
  str_forallb (fun c => negb (isspace_char c)) s = true -> strip s = s.
Proof.
  intros H. unfold strip.
  assert (lstrip s = s) as ->.
  { destruct s as [| c s]; [reflexivity |].
    cbn in H. apply andb_prop in H as [Hc _].
    apply lstrip_fixed, negb_true_iff, Hc. }
  apply rstrip_fixed, H.
Qed.

Lemma parse_digits_nonneg (s : string) (prev_digit : bool) (count k : nat)
    (acc v : Z) :
  0 <= acc ->
  parse_digits s prev_digit count acc = Some (k, v) ->
  0 <= v.
Proof.
  revert prev_digit count acc.
  induction s as [| c s IH]; intros prev_digit count acc Hacc.
  - cbn. destruct prev_digit; [intros [= _ <-]; exact Hacc | discriminate].
  - cbn [parse_digits]. destruct (isdecimal_char c) eqn:Hc.
    + apply IH. pose proof (digit_value_nonneg c Hc). lia.
    + destruct (Ascii.eqb c "_" && prev_digit); [| discriminate].
      apply IH. exact Hacc.
Qed.

Lemma filter_none {A : Type} (f : A -> bool) (l : list A) :
  (forall x, In x l -> f x = false) -> List.filter f l = [].
Proof.
  induction l as [| x l IH]; intros H; [reflexivity |].
  cbn. rewrite (H x) by (left; reflexivity).
  apply IH. intros y Hy. apply H. right. exact Hy.
Qed.

Section Loop.

Variable fromtimestamp : Z -> result datetime.
Variable int_max_str_digits : nat.

(** A count field that passes [isdigit] is never read as a negative
    number. *)
Lemma py_int_digits_nonneg (s : string) (n : Z) :
  isdigit s = true -> py_int int_max_str_digits s = Ok n -> 0 <= n.
Proof.
  unfold isdigit. intros [Hne Hs]%andb_prop.
  destruct s as [| c s]; [discriminate |].
  unfold py_int. rewrite strip_no_space.
  2:{ revert Hs. apply str_forallb_impl. intros d Hd.
      rewrite (digit_not_space d Hd). reflexivity. }
  assert (isdigit_char c = true) as Hc.
  { cbn in Hs. apply andb_prop in Hs as [Hc _]. exact Hc. }
  destruct (digit_not_sign c Hc) as [Hm Hp].
  rewrite (sign_split_other c s Hm Hp).
  destruct (parse_digits (String c s) false 0 0) as [[k v] |] eqn:E;
    [| discriminate].
  destruct (_ && _); [discriminate |].
  intros [= <-]. exact (parse_digits_nonneg _ _ _ _ _ _ (Z.le_refl 0) E).
Qed.

Lemma field_count_nonneg (s : string) (n : Z) :
  (if isdigit s then py_int int_max_str_digits s else Ok 0) = Ok n -> 0 <= n.
Proof.
  destruct (isdigit s) eqn:E.
  - apply py_int_digits_nonneg. exact E.
  - intros [= <-]. lia.
Qed.

Lemma numstat_counts_nonneg (added_str removed_str : string)
    (added removed : Z) :
  numstat_counts int_max_str_digits added_str removed_str
  = Ok (added, removed) ->
  0 <= added /\ 0 <= removed.
Proof.
  unfold numstat_counts.
  destruct (if isdigit added_str
            then py_int int_max_str_digits added_str else Ok 0)
    as [a | e] eqn:Ea.
  - destruct (if isdigit removed_str
              then py_int int_max_str_digits removed_str else Ok 0)
      as [r | e] eqn:Er.
    + cbn. intros [= <- <-].
      split;
        [exact (field_count_nonneg _ _ Ea) | exact (field_count_nonneg _ _ Er)].
    + cbn. destruct e; intros [= <- <-] || discriminate; lia.
  - cbn. destruct e; intros [= <- <-] || discriminate; lia.
Qed.

(** What one line does to the state. *)
Lemma process_line_cases (st st' : extractor_state) (line : string) :
  process_line fromtimestamp int_max_str_digits st line = Ok st' ->
  (exists epoch_str commit_hash epoch ts,
      time_hash_pattern_match line = Some (epoch_str, commit_hash)
      /\ py_int int_max_str_digits epoch_str = Ok epoch
      /\ fromtimestamp epoch = Ok ts
      /\ st' = ExtractorState (heap st ++ [Commit ts commit_hash 0])
                              (commits st ++ [length (heap st)])
                              (Some (length (heap st))))
  \/ (time_hash_pattern_match line = None
      /\ exists k, 0 <= k /\ st' = add_to_current k st).
Proof.
  unfold process_line.
  destruct (time_hash_pattern_match line) as [[epoch_str commit_hash] |].
  - destruct (py_int int_max_str_digits epoch_str) as [epoch | e] eqn:Ei;
      [| discriminate].
    cbn [mbind result_bind].
    destruct (fromtimestamp epoch) as [ts | e] eqn:Et; [| discriminate].
    cbn [mbind result_bind]. intros [= <-].
    left. exists epoch_str, commit_hash, epoch, ts. auto.
  - intros H. right. split; [reflexivity |].
    assert (Ok st = Ok st' -> exists k, 0 <= k /\ st' = add_to_current k st)
      as Hsame.
    { intros [= <-]. exists 0. split; [lia |].
      symmetry. apply add_to_current_zero. }
    destruct (split tab (strip line)) as [| a [| r [| p [| x l]]]];
      try (exact (Hsame H)).
    destruct (current_commit st) as [cur |] eqn:Hc; [| exact (Hsame H)].
    destruct (numstat_counts_total int_max_str_digits a r)
      as (added & removed & Hn).
    rewrite Hn in H. cbn [mbind result_bind] in H. injection H as <-.
    destruct (numstat_counts_nonneg _ _ _ _ Hn) as [Ha Hr].
    exists (added + removed). split; [lia |].
    unfold add_to_current. rewrite Hc. reflexivity.
Qed.

Lemma process_line_succeeds (st : extractor_state) (line : string) :
  (exists st', process_line fromtimestamp int_max_str_digits st line = Ok st')
  <-> epoch_accepted fromtimestamp int_max_str_digits line = true.
Proof.
  unfold epoch_accepted. split.
  - intros [st' H].
    destruct (process_line_cases _ _ _ H)
      as [(e & h & n & ts & -> & -> & -> & _) | [-> _]]; reflexivity.
  - unfold process_line.
    destruct (time_hash_pattern_match line) as [[epoch_str commit_hash] |].
    + destruct (py_int int_max_str_digits epoch_str) as [epoch | e];
        [| discriminate].
      cbn [mbind result_bind].
      destruct (fromtimestamp epoch) as [ts | e]; [| discriminate].
      intros _. eexists. reflexivity.
    + intros _.
      destruct (split tab (strip line)) as [| a [| r [| p [| x l]]]];
        try (eexists; reflexivity).
      destruct (current_commit st) as [cur |]; [| eexists; reflexivity].
      destruct (numstat_counts_total int_max_str_digits a r)
        as (added & removed & ->).
      eexists. reflexivity.
Qed.

Lemma loop_succeeds (lines : list string) (st : extractor_state) :
  (exists st',
      for_each (process_line fromtimestamp int_max_str_digits) lines st
      = Ok st')
  <-> forallb (epoch_accepted fromtimestamp int_max_str_digits) lines = true.
Proof.
  revert st. induction lines as [| line lines IH]; intros st.
  - split; [reflexivity | intros _; eexists; reflexivity].
  - cbn [for_each forallb]. rewrite andb_true_iff.
    rewrite <- (process_line_succeeds st line). split.
    + intros [st' H].
      destruct (process_line fromtimestamp int_max_str_digits st line)
        as [st1 | e] eqn:E; [| discriminate].
      split; [eexists; reflexivity |].
      apply (IH st1). exists st'. exact H.
    + intros [[st1 E] Hrest]. rewrite E. cbn [mbind result_bind].
      apply (IH st1). exact Hrest.
Qed.

Lemma record_of_line_add_lines (k : Z) (c : commit) (line : string) :
  record_of_line fromtimestamp int_max_str_digits c line ->
  record_of_line fromtimestamp int_max_str_digits (add_lines k c) line.
Proof. intros H. exact H. Qed.

Lemma loop_records (lines : list string) (st st' : extractor_state)
    (seen : list string) :
  Forall2 (record_of_line fromtimestamp int_max_str_digits) (heap st) seen ->
  for_each (process_line fromtimestamp int_max_str_digits) lines st = Ok st' ->
  Forall2 (record_of_line fromtimestamp int_max_str_digits) (heap st')
          (seen ++ List.filter is_commit_line lines).
Proof.
  revert st seen. induction lines as [| line lines IH]; intros st seen Hseen.
  - intros [= <-]. cbn. rewrite app_nil_r. exact Hseen.
  - cbn [for_each].
    destruct (process_line fromtimestamp int_max_str_digits st line)
      as [st1 | e] eqn:E; [| discriminate].
    cbn [mbind result_bind]. intros Hrest.
    destruct (process_line_cases _ _ _ E)
      as [(es & h & n & ts & Hm & Hi & Ht & ->) | (Hm & k & _ & ->)].
    + cbn [List.filter]. unfold is_commit_line at 1. rewrite Hm.
      replace (seen ++ line :: List.filter is_commit_line lines)
        with ((seen ++ [line]) ++ List.filter is_commit_line lines)
        by (rewrite <- app_assoc; reflexivity).
      refine (IH _ _ _ Hrest).
      cbn [heap]. apply Forall2_app; [exact Hseen |].
      constructor; [| constructor].
      exists es, n. cbn [hash timestamp]. auto.
    + cbn [List.filter]. unfold is_commit_line at 1. rewrite Hm.
      refine (IH _ _ _ Hrest).
      unfold add_to_current.
      destruct (current_commit st) as [cur |]; [| exact Hseen].
      cbn [heap]. apply Forall2_alter_l; [exact Hseen |].
      intros x y _ _ Hxy. exact (record_of_line_add_lines k x y Hxy).
Qed.

Lemma loop_nonneg (lines : list string) (st st' : extractor_state) :
  Forall (fun c => 0 <= lines_changed c) (heap st) ->
  for_each (process_line fromtimestamp int_max_str_digits) lines st = Ok st' ->
  Forall (fun c => 0 <= lines_changed c) (heap st').
Proof.
  revert st. induction lines as [| line lines IH]; intros st Hst.
  - intros [= <-]. exact Hst.
  - cbn [for_each].
    destruct (process_line fromtimestamp int_max_str_digits st line)
      as [st1 | e] eqn:E; [| discriminate].
    cbn [mbind result_bind]. apply IH.
    destruct (process_line_cases _ _ _ E)
      as [(es & h & n & ts & _ & _ & _ & ->) | (_ & k & Hk & ->)].
    + cbn [heap]. apply Forall_app. split; [exact Hst |].
      constructor; [cbn; lia | constructor].
    + unfold add_to_current.
      destruct (current_commit st) as [cur |]; [| exact Hst].
      cbn [heap]. apply Forall_alter; [exact Hst |].
      intros c _ Hc. cbn. lia.
Qed.

(** X11: when the extractor returns, its records are the commit lines of
    the log, one record per line and in the order of the log; each record
    has the hash of its line and the timestamp made from the epoch of its
    line. *)
Theorem records_follow_commit_lines (stdout : string) (cs : list commit) :
  get_git_commit_data fromtimestamp int_max_str_digits (Ok stdout) = Ok cs ->
  Forall2 (record_of_line fromtimestamp int_max_str_digits) cs
          (List.filter is_commit_line (split newline (strip stdout))).
Proof.
  intros H.
  destruct (get_git_commit_data_returns _ _ _ _ H)
    as (out & st & [= <-] & Hloop & _ & ->).
  exact (loop_records _ (ExtractorState [] [] None) _ []
           ltac:(constructor) Hloop).
Qed.

(** X12: lines_changed of every record the extractor returns is zero or
    more. *)
Theorem extracted_lines_changed_nonneg (run : result string)
    (cs : list commit) :
  get_git_commit_data fromtimestamp int_max_str_digits run = Ok cs ->
  Forall (fun c => 0 <= lines_changed c) cs.
Proof.
  intros H.
  destruct (get_git_commit_data_returns _ _ _ _ H)
    as (out & st & _ & Hloop & _ & ->).
  exact (loop_nonneg _ (ExtractorState [] [] None) _
           ltac:(constructor) Hloop).
Qed.

(** X13: on the output of a completed run the extractor returns a list
    exactly when the epoch of every commit line is accepted, by [int] and by
    [datetime.fromtimestamp]; no other line can make it raise. *)
Theorem extraction_succeeds_iff (stdout : string) :
  (exists cs,
      get_git_commit_data fromtimestamp int_max_str_digits (Ok stdout) = Ok cs)
  <-> forallb (epoch_accepted fromtimestamp int_max_str_digits)
        (split newline (strip stdout)) = true.
Proof.
  rewrite <- (loop_succeeds _ (ExtractorState [] [] None)).
  unfold get_git_commit_data. cbn [mbind result_bind]. split.
  - intros [cs H].
    destruct (for_each _ _ _) as [st | e]; [| discriminate].
    exists st. reflexivity.
  - intros [st ->]. eexists. reflexivity.
Qed.

(** X14: when no line of the output is a commit line, whatever else the
    output holds, the extractor returns the empty list and main reports
    that no commit data was found. *)
Theorem no_commit_line_no_data (stdout : string) :
  (forall line,
      In line (split newline (strip stdout)) ->
      is_commit_line line = false) ->
  get_git_commit_data fromtimestamp int_max_str_digits (Ok stdout) = Ok []
  /\ main fromtimestamp int_max_str_digits (Ok stdout)
     = IO [Print (Text "Gathering commit data...");
           Print (Text "No commit data found.")]
          (Ok tt).
Proof.
  intros Hnone.
  assert (get_git_commit_data fromtimestamp int_max_str_digits (Ok stdout)
          = Ok []) as Hget.
  { assert (forallb (epoch_accepted fromtimestamp int_max_str_digits)
              (split newline (strip stdout)) = true) as Hok.
    { apply forallb_forall. intros line Hin.
      specialize (Hnone line Hin). unfold is_commit_line in Hnone.
      unfold epoch_accepted.
      destruct (time_hash_pattern_match line); [discriminate | reflexivity]. }
    apply (loop_succeeds _ (ExtractorState [] [] None)) in Hok as [st Hloop].
    unfold get_git_commit_data. cbn [mbind result_bind]. rewrite Hloop.
    cbn [mbind result_bind mret result_ret].
    pose proof (wf_for_each _ _ _ _ _ wf_state_initial Hloop) as Hwf.
    pose proof (loop_records _ (ExtractorState [] [] None) _ []
           ltac:(constructor) Hloop) as Hrec.
    cbn [app] in Hrec.
    assert (List.filter is_commit_line (split newline (strip stdout)) = [])
      as Hfil.
    { apply filter_none. exact Hnone. }
    rewrite Hfil in Hrec. apply Forall2_nil_inv_r in Hrec.
    fold (returned st). rewrite (returned_wf st Hwf), Hrec. reflexivity. }
  split; [exact Hget |].
  unfold main. rewrite Hget. reflexivity.
Qed.

End Loop.

Lemma records_follow_commit_lines_witness :
  Forall2 (record_of_line utc_fromtimestamp default_max_str_digits)
          scenario_commits
          (List.filter is_commit_line (split newline (strip scenario_log))).
Proof.
  apply (records_follow_commit_lines utc_fromtimestamp default_max_str_digits
           scenario_log scenario_commits).
  vm_compute. reflexivity.
Defined.

Lemma extracted_lines_changed_nonneg_witness :
  Forall (fun c => 0 <= lines_changed c) scenario_commits.
Proof.
  apply (extracted_lines_changed_nonneg utc_fromtimestamp
           default_max_str_digits (Ok scenario_log) scenario_commits).
  vm_compute. reflexivity.
Defined.

Lemma extraction_succeeds_iff_witness :
  exists cs,
    get_git_commit_data utc_fromtimestamp default_max_str_digits
      (Ok scenario_log) = Ok cs.
Proof.
  apply (proj2 (extraction_succeeds_iff utc_fromtimestamp
                  default_max_str_digits scenario_log)).
  vm_compute. reflexivity.
Defined.

Lemma no_commit_line_no_data_witness :
  get_git_commit_data utc_fromtimestamp default_max_str_digits (Ok stray_log)
  = Ok []
  /\ main utc_fromtimestamp default_max_str_digits (Ok stray_log)
     = IO [Print (Text "Gathering commit data...");
           Print (Text "No commit data found.")]
          (Ok tt).
Proof.
  apply (no_commit_line_no_data utc_fromtimestamp default_max_str_digits
           stray_log).
  intros line Hin. vm_compute in Hin.
  destruct Hin as [<- | [<- | []]]; reflexivity.
Defined.

(** ** Which record a statistics line changes *)

Lemma list_snoc_cases {A : Type} (l : list A) :
  l = [] \/ exists l' x, l = l' ++ [x].
Proof.
  induction l as [| x l _] using rev_ind; [left; reflexivity |].
  right. exists l, x. reflexivity.
Qed.

Lemma last_seq_succ (n : nat) : last (seq 0 (S n)) = Some n.
Proof. rewrite seq_S. apply last_snoc. Qed.

(** X15: a line that is not a commit line changes at most the most recent
    record of the list under construction: it adds a number of lines, zero
    or more, to lines_changed of that record; the earlier records, and the
    hash and timestamp of the most recent one, stay as they are. *)
Theorem statistics_go_to_latest_record
    (fromtimestamp : Z -> result datetime) (int_max_str_digits : nat)
    (st st' : extractor_state) (line : string) :
  wf_state st ->
  is_commit_line line = false ->
  process_line fromtimestamp int_max_str_digits st line = Ok st' ->
  (returned st = [] /\ returned st' = [])
  \/ exists earlier c k,
       0 <= k
       /\ returned st = earlier ++ [c]
       /\ returned st'
          = earlier ++ [Commit (timestamp c) (hash c) (lines_changed c + k)].
Proof.
  intros Hwf Hline Hrun.
  destruct (process_line_cases _ _ _ _ _ Hrun)
    as [(es & h & n & ts & Hm & _) | (_ & k & Hk & ->)].
  { unfold is_commit_line in Hline. rewrite Hm in Hline. discriminate. }
  rewrite (returned_wf _ (wf_add_to_current k st Hwf)), (returned_wf st Hwf).
  destruct Hwf as [Hc Hl]. unfold add_to_current.
  destruct (list_snoc_cases (heap st)) as [Hheap | (h0 & c0 & Hheap)].
  - left. rewrite Hheap in Hc. cbn in Hc. rewrite Hc in Hl. cbn in Hl.
    rewrite Hl, Hheap. split; reflexivity.
  - right. exists h0, c0, k.
    split; [exact Hk |]. split; [exact Hheap |].
    rewrite Hheap, length_app in Hc. cbn [length] in Hc.
    replace (length h0 + 1)%nat with (S (length h0)) in Hc by lia.
    rewrite Hc, last_seq_succ in Hl. rewrite Hl. cbn [heap].
    rewrite Hheap.
    replace (length h0) with (length h0 + 0)%nat at 1 by lia.
    rewrite alter_app_r. reflexivity.
Qed.

Lemma statistics_go_to_latest_record_witness :
  (returned one_commit_state = []
   /\ returned (add_to_current 5 one_commit_state) = [])
  \/ exists earlier c k,
       0 <= k
       /\ returned one_commit_state = earlier ++ [c]
       /\ returned (add_to_current 5 one_commit_state)
          = earlier ++ [Commit (timestamp c) (hash c) (lines_changed c + k)].
Proof.
  apply (statistics_go_to_latest_record utc_fromtimestamp
           default_max_str_digits one_commit_state
           (add_to_current 5 one_commit_state)
           (line_of ["5"%string; "-"%string; "f"%string])).
  - split; reflexivity.
  - reflexivity.
  - reflexivity.
Defined.

(** ** The report of main *)



Lemma session_events_counts (sessions : list (list commit)) (times : list Q)
    (i : Z) :
  length sessions = length times ->
  omap reported_commit_count (session_events i sessions times)
  = map length sessions.
Proof.
  revert times i. induction sessions as [| s ss IH]; intros [| t ts] i Hlen;
    try reflexivity; try discriminate.
  cbn [session_events omap list_omap reported_commit_count map].
  fold (omap reported_commit_count (session_events (i + 1) ss ts)).
  rewrite IH by (cbn in Hlen; lia). reflexivity.
Qed.

Lemma session_events_indices (sessions : list (list commit)) (times : list Q)
    (i : Z) :
  length sessions = length times ->
  omap reported_session_index (session_events i sessions times)
  = seqZ i (Z.of_nat (length sessions)).
Proof.
  revert times i. induction sessions as [| s ss IH]; intros [| t ts] i Hlen;
    try reflexivity; try discriminate.
  cbn [session_events omap list_omap reported_session_index].
  fold (omap reported_session_index (session_events (i + 1) ss ts)).
  rewrite IH by (cbn in Hlen; lia).
  cbn [length]. rewrite (seqZ_cons i) by lia.
  f_equal. f_equal; lia.
Qed.

Lemma concat_lengths {A : Type} (ls : list (list A)) :
  sum_list (map length ls) = length (concat ls).
Proof.
  induction ls as [| l ls IH]; [reflexivity |].
  cbn. rewrite length_app, IH. reflexivity.
Qed.



(** ** A history in ascending order of time *)

Lemma chronological_app (l1 l2 : list commit) :
  chronological (l1 ++ l2) -> chronological l1 /\ chronological l2.
Proof.
  unfold chronological. induction l1 as [| a l1 IH]; intros H.
  - split; [constructor | exact H].
  - cbn in H. apply Sorted_inv in H as [Hs Hhd].
    destruct (IH Hs) as [H1 H2]. split; [| exact H2].
    constructor; [exact H1 |].
    destruct l1; [constructor |]. inversion Hhd. constructor. assumption.
Qed.

Lemma chronological_concat (ss : list (list commit)) :
  chronological (concat ss) -> Forall chronological ss.
Proof.
  induction ss as [| s ss IH]; intros H; [constructor |].
  cbn in H. apply chronological_app in H as [H1 H2].
  constructor; [exact H1 | exact (IH H2)].
Qed.

Lemma estimate_value_nonneg (s : list commit) (q : Q) :
  chronological s ->
  Forall (fun c => 0 <= lines_changed c) s ->
  estimate_session_time s = Ok q ->
  (0 <= q)%Q.
Proof.
  intros Hsorted Hlines.
  destruct s as [| first rest]; [intros [= <-]; apply Qle_refl |].
  destruct (last (first :: rest)) as [last_c |] eqn:Hlast;
    [| apply last_None in Hlast; discriminate].
  rewrite (estimate_session_time_value (first :: rest) first last_c
             eq_refl Hlast).
  intros [= <-].
  pose proof (chronological_first_last _ _ _ Hsorted Hlast) as Hle.
  apply Forall_inv in Hlines.
  rewrite span_minutes.
  unfold minutes_between, pre_commit_buffer, TIME_PER_LINE_MINUTES,
    PRE_COMMIT_LINE_FACTOR, Qle, Qplus, Qmult.
  simpl. nia.
Qed.

Lemma Qsum_nonneg (l : list Q) :
  Forall (fun q => (0 <= q)%Q) l -> (0 <= Qsum l)%Q.
Proof.
  induction 1 as [| q l Hq _ IH]; [apply Qle_refl |].
  cbn [Qsum fold_right]. fold (Qsum l).
  replace 0%Q with (0 + 0)%Q by reflexivity.
  apply Qplus_le_compat; assumption.
Qed.

Lemma estimates_nonneg (sessions : list (list commit)) (times : list Q) :
  Forall2 (fun s t => estimate_session_time s = Ok t) sessions times ->
  Forall chronological sessions ->
  Forall (Forall (fun c => 0 <= lines_changed c)) sessions ->
  Forall (fun q => (0 <= q)%Q) times.
Proof.
  induction 1 as [| s t ss ts Hst _ IH]; intros Hsorted Hlines;
    [constructor |].
  apply Forall_cons_1 in Hsorted as [Hs Hss].
  apply Forall_cons_1 in Hlines as [Hl Hls].
  constructor; [exact (estimate_value_nonneg s t Hs Hl Hst) |].
  exact (IH Hss Hls).
Qed.

Lemma session_events_hours (sessions : list (list commit)) (times : list Q)
    (i : Z) :
  omap reported_hours (session_events i sessions times) = [].
Proof.
  revert times i. induction sessions as [| s ss IH]; intros [| t ts] i;
    try reflexivity.
  cbn [session_events omap list_omap reported_hours].
  apply IH.
Qed.



(** ** Sessions regrouped, and what the total adds up to *)

Lemma linked_sessions_of (c : commit) (s : list commit) :
  linked (c :: s) -> sessions_of (c :: s) = [c :: s].
Proof.
  revert c. induction s as [| d s IH]; intros c Hl; [reflexivity |].
  destruct Hl as [Hcd Hrest].
  rewrite sessions_of_cons, Hcd, (IH d Hrest). reflexivity.
Qed.

(** X19: sessions are stable: grouping the commits of any session that the
    function returned gives that one session back. *)
Theorem regrouping_a_session (commits : list commit) :
  exists sessions,
    group_commits_into_sessions commits = Ok sessions
    /\ forall s, In s sessions -> group_commits_into_sessions s = Ok [s].
Proof.
  exists (sessions_of commits).
  split; [apply group_commits_into_sessions_eq |].
  intros s Hin. rewrite group_commits_into_sessions_eq. f_equal.
  pose proof (sessions_of_linked commits) as Hl.
  pose proof (sessions_of_nonempty commits) as Hn.
  rewrite List.Forall_forall in Hl, Hn.
  specialize (Hl s Hin). specialize (Hn s Hin).
  destruct s as [| c s]; [contradiction |].
  apply linked_sessions_of, Hl.
Qed.

Lemma last_default_cons (c d : commit) (s : list commit) :
  List.last (c :: s) d = List.last s c.
Proof.
  revert c d. induction s as [| x s IH]; intros c d; [reflexivity |].
  change (List.last (c :: x :: s) d) with (List.last (x :: s) d).
  rewrite (IH x d), (IH x c). reflexivity.
Qed.

Lemma last_option_default (first : commit) (rest : list commit) :
  last (first :: rest) = Some (List.last rest first).
Proof.
  revert first. induction rest as [| x rest IH]; intros first; [reflexivity |].
  rewrite last_cons_cons, (IH x), last_default_cons. reflexivity.
Qed.

Lemma estimate_session_time_estimate_value (s : list commit) :
  exists q, estimate_session_time s = Ok q /\ (q == estimate_value s)%Q.
Proof.
  destruct s as [| first rest]; [exists 0%Q; split; reflexivity |].
  eexists. split.
  - exact (estimate_session_time_value (first :: rest) first _ eq_refl
             (last_option_default first rest)).
  - cbn [estimate_value]. rewrite span_minutes. reflexivity.
Qed.

Lemma minutes_between_same (a : datetime) : (minutes_between a a == 0)%Q.
Proof. unfold minutes_between, Qeq. cbn. lia. Qed.

Lemma sessions_of_head (c : commit) (rest : list commit) :
  exists s ss, sessions_of (c :: rest) = (c :: s) :: ss.
Proof.
  unfold sessions_of. destruct (chunks c rest) as [s ss]. eauto.
Qed.

Lemma long_gap_minutes_cons (a b : commit) (rest : list commit) :
  long_gap_minutes (a :: b :: rest)
  = ((if same_session a b then 0 else time_diff a b)
     + long_gap_minutes (b :: rest))%Q.
Proof. reflexivity. Qed.

Lemma Qsum_cons (x : Q) (l : list Q) : Qsum (x :: l) = (x + Qsum l)%Q.
Proof. reflexivity. Qed.

Lemma first_commit_buffers_cons (c : commit) (s : list commit)
    (ss : list (list commit)) :
  first_commit_buffers ((c :: s) :: ss)
  = (pre_commit_buffer c + first_commit_buffers ss)%Q.
Proof. reflexivity. Qed.

Lemma estimate_value_single (p : commit) :
  (estimate_value [p] == pre_commit_buffer p)%Q.
Proof.
  cbn [estimate_value List.last]. rewrite minutes_between_same. ring.
Qed.

Lemma estimate_value_cons (p c : commit) (s : list commit) :
  (estimate_value (p :: c :: s)
   == minutes_between (timestamp p) (timestamp c)
      + estimate_value (c :: s) - pre_commit_buffer c
      + pre_commit_buffer p)%Q.
Proof.
  cbn [estimate_value]. rewrite last_default_cons.
  rewrite (minutes_between_add (timestamp p) (timestamp c)
             (timestamp (List.last s c))).
  ring.
Qed.

(** The sum of the session estimates of a history that starts with [p]. *)
Lemma sessions_total (rest : list commit) (p : commit) :
  (Qsum (map estimate_value (sessions_of (p :: rest)))
   == minutes_between (timestamp p) (timestamp (List.last rest p))
      - long_gap_minutes (p :: rest)
      + first_commit_buffers (sessions_of (p :: rest)))%Q.
Proof.
  revert p. induction rest as [| c rest IH]; intros p.
  - change (sessions_of [p]) with [[p]].
    cbn [map]. rewrite Qsum_cons, first_commit_buffers_cons.
    rewrite estimate_value_single.
    cbn [List.last long_gap_minutes]. rewrite minutes_between_same.
    change (Qsum []) with 0%Q. change (first_commit_buffers []) with 0%Q.
    ring.
  - specialize (IH c).
    rewrite sessions_of_cons, long_gap_minutes_cons, last_default_cons.
    destruct (sessions_of_head c rest) as (s & ss & Hs).
    rewrite Hs in IH |- *.
    cbn [map] in IH. rewrite Qsum_cons, first_commit_buffers_cons in IH.
    rewrite (minutes_between_add (timestamp p) (timestamp c)
               (timestamp (List.last rest c))).
    destruct (same_session p c); cbn [hd tl map];
      rewrite !Qsum_cons, !first_commit_buffers_cons.
    + rewrite estimate_value_cons.
      set (rest_sum := Qsum (map estimate_value ss)) in *.
      set (rest_buffers := first_commit_buffers ss) in *.
      set (whole := minutes_between (timestamp c)
                      (timestamp (List.last rest c))) in *.
      set (gaps := long_gap_minutes (c :: rest)) in *.
      set (e := estimate_value (c :: s)) in *.
      assert (e == whole - gaps + (pre_commit_buffer c + rest_buffers)
                   - rest_sum)%Q as -> by (rewrite <- IH; ring).
      ring.
    + rewrite estimate_value_single, time_diff_minutes.
      set (rest_sum := Qsum (map estimate_value ss)) in *.
      set (rest_buffers := first_commit_buffers ss) in *.
      set (whole := minutes_between (timestamp c)
                      (timestamp (List.last rest c))) in *.
      set (gaps := long_gap_minutes (c :: rest)) in *.
      set (e := estimate_value (c :: s)) in *.
      assert (e == whole - gaps + (pre_commit_buffer c + rest_buffers)
                   - rest_sum)%Q as -> by (rewrite <- IH; ring).
      ring.
Qed.

Lemma estimates_are_values (sessions : list (list commit)) (times : list Q) :
  Forall2 (fun s t => estimate_session_time s = Ok t) sessions times ->
  (Qsum times == Qsum (map estimate_value sessions))%Q.
Proof.
  induction 1 as [| s t ss ts Hst _ IH]; [reflexivity |].
  cbn [map]. rewrite !Qsum_cons, IH.
  destruct (estimate_session_time_estimate_value s) as (q & Hq & Hv).
  rewrite Hst in Hq. injection Hq as <-. rewrite Hv. reflexivity.
Qed.



(** ** The bound and the stability on the scenario *)


Lemma regrouping_a_session_witness :
  group_commits_into_sessions [commit_at 0 50; commit_at 1000 10]
  = Ok [[commit_at 0 50; commit_at 1000 10]].
Proof.
  destruct (regrouping_a_session scenario_commits)
    as (sessions & Hgroup & Hstable).
  rewrite scenario_sessions in Hgroup. injection Hgroup as <-.
  apply (Hstable [commit_at 0 50; commit_at 1000 10]).
  left. reflexivity.
Defined.
